(** * The HTTP client core of terraform-provider-zenfra

    A shallow embedding of package [zenfraclient]: the retry policy
    (retry.go), the request executor and error classifier (client.go) and
    the typed errors (errors.go), with the properties the specification
    states about them.

    Conventions of the embedding:
    - Go's [int], [int64] and [time.Duration] are [Z] with the 64-bit
      two's-complement wrap-around written out ([wrap64]); [int] is the
      64-bit [int] of the amd64 and arm64 targets.  Durations count
      nanoseconds.
    - Go strings are byte strings: [string].
    - Go maps are stdpp's [gmap]; a nil map is the empty map (the code only
      reads them).
    - A function that may panic returns [option] or ends in [Panics].
    - What the standard library leaves open or does behind the package's
      back is a parameter ([GoLib]); what the network, the clock and the
      caller's context do during a call is an input ([Attempt]). *)

From Stdlib Require Import ZArith Ascii String List Bool Lia.
From stdpp Require Import base option list strings gmap pretty.

Local Open Scope string_scope.
Local Open Scope Z_scope.

(** ** Machine integers *)

Module Int64.

Definition min_signed : Z := - 2 ^ 63.
Definition max_signed : Z := 2 ^ 63 - 1.

(** The value an [int64] holds after an operation whose exact result is [z]. *)
Definition wrap64 (z : Z) : Z := (z + 2 ^ 63) mod 2 ^ 64 - 2 ^ 63.

Definition add (a b : Z) : Z := wrap64 (a + b).
Definition mul (a b : Z) : Z := wrap64 (a * b).
(** Go's integer division truncates toward zero; dividing by 2 or 4 cannot
    overflow. *)
Definition div (a b : Z) : Z := Z.quot a b.

End Int64.

Export Int64.

(** ** package time *)

Definition Nanosecond : Z := 1.
Definition Millisecond : Z := 1000000.
Definition Second : Z := 1000000000.

(** ** package strconv *)

Definition digit_of_byte (c : ascii) : option Z :=
  let n := Z.of_N (N_of_ascii c) in
  if (48 <=? n) && (n <=? 57) then Some (n - 48) else None.

(** The unsigned decimal value of a string of digits, [None] on any other
    byte.  [acc] is the value of the digits read so far. *)
Fixpoint parse_digits (acc : Z) (s : string) : option Z :=
  match s with
  | EmptyString => Some acc
  | String c rest =>
      match digit_of_byte c with
      | Some d => parse_digits (10 * acc + d) rest
      | None => None
      end
  end.

(** [strconv.Atoi]: an optional sign, then one or more decimal digits, and
    the value must fit an [int].  [None] is a non-nil error. *)
Definition Atoi (s : string) : option Z :=
  let '(neg, digits) :=
    match s with
    | String "-" rest => (true, rest)
    | String "+" rest => (false, rest)
    | _ => (false, s)
    end in
  match digits with
  | EmptyString => None
  | _ =>
      match parse_digits 0 digits with
      | Some n =>
          let v := if neg : bool then - n else n in
          if (min_signed <=? v) && (v <=? max_signed) then Some v else None
      | None => None
      end
  end.

(** ** package math/rand/v2

    [rand.Int64N(n)] panics for [n <= 0] and otherwise returns some value
    of [0, n).  [seed] stands for the state of the random source: every
    value of the interval is the result for some seed. *)
Definition Int64N (seed n : Z) : option Z :=
  if n <=? 0 then None else Some (seed mod n).

(** ** package strings *)

Fixpoint byte_in (c : ascii) (cutset : string) : bool :=
  match cutset with
  | EmptyString => false
  | String d rest => Ascii.eqb c d || byte_in c rest
  end.

(** [strings.TrimRight] for a cutset of ASCII bytes, where Go works byte by
    byte: the longest prefix of [s] whose last byte is not in the cutset. *)
Fixpoint TrimRight (s cutset : string) : string :=
  match s with
  | EmptyString => EmptyString
  | String c rest =>
      match TrimRight rest cutset with
      | EmptyString => if byte_in c cutset then EmptyString else String c EmptyString
      | t => String c t
      end
  end.

(** [strings.HasSuffix]. *)
Fixpoint HasSuffix (s suffix : string) : bool :=
  String.eqb s suffix ||
  match s with
  | EmptyString => false
  | String _ rest => HasSuffix rest suffix
  end.

(** ** package net/http *)

Module http.

(** [textproto.CanonicalMIMEHeaderKey] on header names made of letters,
    digits and hyphens: the first letter and every letter after a hyphen in
    upper case, the others in lower case. *)
Definition upper (c : ascii) : ascii :=
  let n := N_of_ascii c in
  if ((97 <=? n) && (n <=? 122))%N then ascii_of_N (n - 32) else c.

Definition lower (c : ascii) : ascii :=
  let n := N_of_ascii c in
  if ((65 <=? n) && (n <=? 90))%N then ascii_of_N (n + 32) else c.

Fixpoint canonical (up : bool) (s : string) : string :=
  match s with
  | EmptyString => EmptyString
  | String c rest =>
      String (if up then upper c else lower c) (canonical (Ascii.eqb c "-") rest)
  end.

Definition CanonicalHeaderKey (s : string) : string := canonical true s.

(** [http.Header]: canonical key to the values of the key. *)
Abbreviation Header := (gmap string (list string)).

(** [Header.Get]: the first value of the key, or the empty string. *)
Definition Get (h : Header) (key : string) : string :=
  match h !! CanonicalHeaderKey key with
  | Some (v :: _) => v
  | _ => EmptyString
  end.

(** [Header.Set]. *)
Definition Set_ (h : Header) (key value : string) : Header :=
  <[ CanonicalHeaderKey key := [value] ]> h.

(** The part of [*http.Response] the package reads.  [Body] and [BodyErr]
    are what [io.ReadAll(resp.Body)] returns: the bytes read and the
    error. *)
Record Response := {
  StatusCode : Z;
  Header_ : Header;
  Body : string;
  BodyErr : option string;
}.

(** The part of [*http.Request] the package sets. *)
Record Request := {
  Method : string;
  URL : string;
  ReqHeader : Header;
  ReqBody : option string;
}.

Definition MethodGet : string := "GET".

Definition StatusBadRequest : Z := 400.
Definition StatusUnauthorized : Z := 401.
Definition StatusForbidden : Z := 403.
Definition StatusNotFound : Z := 404.
Definition StatusConflict : Z := 409.
Definition StatusUnprocessableEntity : Z := 422.
Definition StatusTooManyRequests : Z := 429.
Definition StatusBadGateway : Z := 502.
Definition StatusServiceUnavailable : Z := 503.
Definition StatusGatewayTimeout : Z := 504.

End http.

(** ** errors.go *)

Record APIError := {
  StatusCode : Z;
  Message : string;
  RequestID : string;
}.

(** The values of Go's [error] interface the package handles: a pointer to
    one of its own error structs, an error wrapped by
    [fmt.Errorf(prefix + "%w", err)], or an error of another package (the
    context's, the transport's, the JSON decoder's), which never unwraps to
    one of the package's types. *)
Inductive error :=
| APIErrorPtr (e : APIError)
| NotFoundErrorPtr (e : APIError)
| ConflictErrorPtr (e : APIError)
| UnauthorizedErrorPtr (e : APIError)
| ForbiddenErrorPtr (e : APIError)
| ValidationErrorPtr (e : APIError) (Fields : gmap string string)
| Errorf (prefix : string) (err : error)
| ForeignError (msg : string).

(** [errors.As] walks the chain of wrapped errors for the target type. *)
Fixpoint IsNotFound (err : error) : bool :=
  match err with
  | NotFoundErrorPtr _ => true
  | Errorf _ inner => IsNotFound inner
  | _ => false
  end.

Fixpoint IsConflict (err : error) : bool :=
  match err with
  | ConflictErrorPtr _ => true
  | Errorf _ inner => IsConflict inner
  | _ => false
  end.

Fixpoint IsUnauthorized (err : error) : bool :=
  match err with
  | UnauthorizedErrorPtr _ => true
  | Errorf _ inner => IsUnauthorized inner
  | _ => false
  end.

Fixpoint IsForbidden (err : error) : bool :=
  match err with
  | ForbiddenErrorPtr _ => true
  | Errorf _ inner => IsForbidden inner
  | _ => false
  end.

(** The embedded [APIError] of an error of the package, if it is one. *)
Definition apiError_of (err : error) : option APIError :=
  match err with
  | APIErrorPtr e | NotFoundErrorPtr e | ConflictErrorPtr e
  | UnauthorizedErrorPtr e | ForbiddenErrorPtr e | ValidationErrorPtr e _ => Some e
  | _ => None
  end.

(** The kinds of the taxonomy. *)
Inductive kind :=
| not_found | conflict | unauthorized | forbidden | validation | generic.

(** The kind of an error value [checkResponse] returns. *)
Definition kind_of (err : error) : option kind :=
  match err with
  | NotFoundErrorPtr _ => Some not_found
  | ConflictErrorPtr _ => Some conflict
  | UnauthorizedErrorPtr _ => Some unauthorized
  | ForbiddenErrorPtr _ => Some forbidden
  | ValidationErrorPtr _ _ => Some validation
  | APIErrorPtr _ => Some generic
  | Errorf _ _ | ForeignError _ => None
  end.

(** The taxonomy as the specification words it: the kind each status maps
    to. *)
Definition spec_kind_of_status (status : Z) : kind :=
  match status with
  | 404 => not_found
  | 409 => conflict
  | 401 => unauthorized
  | 403 => forbidden
  | 400 | 422 => validation
  | _ => generic
  end.

Definition is_2xx (status : Z) : Prop := 200 <= status < 300.

(** ** The standard library as a parameter *)

(** The anonymous struct [errBody] of [checkResponse]. *)
Module errBody.
Record t := {
  Error : string;
  Message : string;
  Fields : gmap string string;
}.
Definition zero : t := {| Error := EmptyString; Message := EmptyString; Fields := ∅ |}.
End errBody.

Class GoLib := {
  (** the int64 that converting the float64 [2^attempt] gives when the
      float is outside int64 ([attempt >= 63]): the Go specification leaves
      it to the implementation *)
  float64_to_int64_overflow : Z -> Z;
  (** [http.StatusText] *)
  StatusText : Z -> string;
  (** [json.Unmarshal(bodyBytes, &errBody)]: the struct as the decoder
      leaves it and the error it returns *)
  json_Unmarshal_errBody : string -> errBody.t * option string;
  (** the error of [http.NewRequestWithContext] for a method and a URL *)
  NewRequest_error : string -> string -> option string;
}.

(** ** retry.go *)

Definition defaultBaseDelay : Z := 500 * Millisecond.
Definition defaultMaxDelay : Z := 30 * Second.
Definition defaultMaxRetries : Z := 3.

Record retryConfig := {
  baseDelay : Z;
  maxDelay : Z;
  maxRetries : Z;
}.

Definition defaultRetryConfig : retryConfig :=
  {| baseDelay := defaultBaseDelay;
     maxDelay := defaultMaxDelay;
     maxRetries := defaultMaxRetries |}.

Definition isRetryableStatus (statusCode : Z) : bool :=
  if statusCode =? http.StatusTooManyRequests then true
  else if statusCode =? http.StatusBadGateway then true
  else if statusCode =? http.StatusServiceUnavailable then true
  else if statusCode =? http.StatusGatewayTimeout then true
  else false.

(** The first block of [retryDelay]: the delay a 429 response asks for in
    its Retry-After header, capped at the maximum; [None] when the function
    falls through to the backoff. *)
Definition retryAfterDelay (cfg : retryConfig) (resp : option http.Response)
  : option Z :=
  match resp with
  | Some r =>
      if http.StatusCode r =? http.StatusTooManyRequests then
        let retryAfter := http.Get (http.Header_ r) "Retry-After" in
        if String.eqb retryAfter EmptyString then None
        else
          match Atoi retryAfter with
          | Some seconds =>
              if 0 <? seconds then
                let delay := Int64.mul seconds Second in
                Some (if maxDelay cfg <? delay then maxDelay cfg else delay)
              else None
          | None => None
          end
      else None
  | None => None
  end.

(** What the caller's context and the timer do to one [sleepWithContext]:
    the branch its [select] takes. *)
Inductive Wake :=
| TimerFired
| CtxDone (err : error).

(** [sleepWithContext]: [ctx.Err()] when the context is done first, nil when
    the timer fires first. *)
Definition sleepWithContext (d : Z) (w : Wake) : option error :=
  match w with
  | CtxDone err => Some err
  | TimerFired => None
  end.

Section Retry.
Context `{GoLib}.

(** [time.Duration(math.Pow(2, float64(attempt)))]: the power is exact, a
    power below one truncates to zero. *)
Definition pow2_Duration (attempt : Z) : Z :=
  if attempt <? 0 then 0
  else if attempt <=? 62 then 2 ^ attempt
  else wrap64 (float64_to_int64_overflow attempt).

(** The second block of [retryDelay], first half: the exponential backoff
    [base * 2^attempt], capped at the maximum delay. *)
Definition cappedDelay (cfg : retryConfig) (attempt : Z) : Z :=
  let delay := Int64.mul (baseDelay cfg) (pow2_Duration attempt) in
  if maxDelay cfg <? delay then maxDelay cfg else delay.

(** The second block of [retryDelay]: the capped backoff with its jitter.
    [None] is the panic of [rand.Int64N]. *)
Definition backoffDelay (cfg : retryConfig) (attempt : Z) (seed : Z)
  : option Z :=
  let delay := cappedDelay cfg attempt in
  match Int64N seed (Int64.div delay 2) with
  | Some jitter =>
      Some (Int64.add (Int64.add (Int64.div delay 2) (Int64.div delay 4)) jitter)
  | None => None
  end.

Definition retryDelay (cfg : retryConfig) (attempt : Z)
  (resp : option http.Response) (seed : Z) : option Z :=
  match retryAfterDelay cfg resp with
  | Some delay => Some delay
  | None => backoffDelay cfg attempt seed
  end.

End Retry.

(** ** client.go *)

Definition defaultTimeout : Z := 30 * Second.
Definition defaultUserAgent : string := "terraform-provider-zenfra/0.1.0".

Record ClientConfig := {
  Endpoint : string;
  APIToken : string;
  UserAgent : string;
  Timeout : Z;
  MaxRetries : Z;
}.

Record Client := {
  baseURL : string;
  apiToken : string;
  userAgent : string;
  httpClient_Timeout : Z;
  retry : retryConfig;
}.

Definition NewClient (cfg : ClientConfig) : Client + error :=
  if String.eqb (Endpoint cfg) EmptyString then inr (ForeignError "endpoint is required")
  else if String.eqb (APIToken cfg) EmptyString then inr (ForeignError "api_token is required")
  else
    let userAgent := if String.eqb (UserAgent cfg) EmptyString then defaultUserAgent
                     else UserAgent cfg in
    let timeout := if Timeout cfg =? 0 then defaultTimeout else Timeout cfg in
    let retryCfg := defaultRetryConfig in
    let retryCfg :=
      if 0 <? MaxRetries cfg
      then {| baseDelay := baseDelay retryCfg;
              maxDelay := maxDelay retryCfg;
              maxRetries := MaxRetries cfg |}
      else retryCfg in
    inl {| baseURL := TrimRight (Endpoint cfg) "/";
           apiToken := APIToken cfg;
           userAgent := userAgent;
           httpClient_Timeout := timeout;
           retry := retryCfg |}.

(** A request body: nil, or a value together with what [json.Marshal]
    returns for it (the bytes or the error). *)
Inductive any_body :=
| body_nil
| body_value (marshal : string + string).

(** What happens outside the client in the loop iteration [attempt]. *)
Record Attempt := {
  (** [c.httpClient.Do(req)]: the response or the transport error *)
  do_result : http.Response + error;
  (** [ctx.Err()] read after a failed [Do] *)
  ctx_err : option error;
  (** the state of the random source when the delay is computed *)
  seed : Z;
  (** the outcome of the wait after the attempt *)
  wake : Wake;
}.

(** What a call does that is seen from outside. *)
Inductive Event :=
| EvRequest (req : http.Request)
| EvSleep (d : Z) (w : Wake).

Inductive outcome (A : Type) :=
| Returns (a : A)
| Panics.
Arguments Returns {A} a.
Arguments Panics {A}.

(** A run: how the call ends and what it did, in order. *)
Definition run (A : Type) : Type := outcome A * list Event.

Definition emit {A} (ev : Event) (k : run A) : run A := (fst k, ev :: snd k).
Definition ret {A} (a : A) : run A := (Returns a, []).
Definition panic {A} : run A := (Panics, []).

Definition requests (t : list Event) : list http.Request :=
  omap (fun ev => match ev with EvRequest r => Some r | _ => None end) t.

Section Client.
Context `{GoLib}.

Definition checkResponse (resp : http.Response) : option error :=
  let status := http.StatusCode resp in
  if (200 <=? status) && (status <? 300) then None
  else
    let bodyBytes := http.Body resp in
    let RequestID := http.Get (http.Header_ resp) "X-Request-ID" in
    let '(decoded, err) := json_Unmarshal_errBody bodyBytes in
    let Message :=
      match err with
      | None =>
          if negb (String.eqb (errBody.Message decoded) EmptyString)
          then errBody.Message decoded
          else if negb (String.eqb (errBody.Error decoded) EmptyString)
          then errBody.Error decoded
          else EmptyString
      | Some _ => EmptyString
      end in
    let Message := if String.eqb Message EmptyString then StatusText status else Message in
    let apiErr := {| StatusCode := status; Message := Message; RequestID := RequestID |} in
    Some (if status =? http.StatusNotFound then NotFoundErrorPtr apiErr
          else if status =? http.StatusConflict then ConflictErrorPtr apiErr
          else if status =? http.StatusUnauthorized then UnauthorizedErrorPtr apiErr
          else if status =? http.StatusForbidden then ForbiddenErrorPtr apiErr
          else if (status =? http.StatusBadRequest) || (status =? http.StatusUnprocessableEntity)
               then ValidationErrorPtr apiErr (errBody.Fields decoded)
          else APIErrorPtr apiErr).

(** One call of [doRequest]: the client, the world during the call and the
    arguments. *)
Section Call.
Variable c : Client.
Variable env : nat -> Attempt.
Variables method path : string.
Variable body : any_body.

(** The request of one attempt, with the headers [doRequest] sets. *)
Definition newRequest (bodyReader : option string) : http.Request :=
  let url := baseURL c ++ path in
  let h : http.Header := ∅ in
  let h := http.Set_ h "Authorization" ("Bearer " ++ apiToken c) in
  let h := http.Set_ h "User-Agent" (userAgent c) in
  let h := match body with
           | body_nil => h
           | body_value _ => http.Set_ h "Content-Type" "application/json"
           end in
  let h := http.Set_ h "Accept" "application/json" in
  {| http.Method := method; http.URL := url;
     http.ReqHeader := h; http.ReqBody := bodyReader |}.

(** The wait between two attempts, then [k]; a context error ends the
    call. *)
Definition wait (attempt : nat) (resp : option http.Response)
  (k : run (option http.Response * option error))
  : run (option http.Response * option error) :=
  match retryDelay (retry c) (Z.of_nat attempt) resp (seed (env attempt)) with
  | None => panic
  | Some d =>
      emit (EvSleep d (wake (env attempt)))
        match sleepWithContext d (wake (env attempt)) with
        | Some sleepErr => ret (None, Some sleepErr)
        | None => k
        end
  end.

(** The statements after the loop: all retries exhausted. *)
Definition exhausted (lastResp : option http.Response) (lastErr : option error)
  : option http.Response * option error :=
  match lastResp with
  | Some r =>
      (None, Some (APIErrorPtr
         {| StatusCode := http.StatusCode r;
            Message := "request failed after " ++ pretty (maxRetries (retry c))
                       ++ " retries with status " ++ pretty (http.StatusCode r);
            RequestID := EmptyString |}))
  | None => (None, lastErr)
  end.

(** The loop of [doRequest] with [n] iterations left, at iteration
    [attempt]. *)
Fixpoint retryLoop (n attempt : nat) (bodyReader : option string)
  (lastResp : option http.Response) (lastErr : option error)
  : run (option http.Response * option error) :=
  match n with
  | O => ret (exhausted lastResp lastErr)
  | S n' =>
      (* Re-create the body reader for retries. *)
      match (match body with
             | body_value m =>
                 if (0 <? Z.of_nat attempt)
                 then match m with
                      | inl jsonBytes => inl (Some jsonBytes)
                      | inr e => inr e
                      end
                 else inl bodyReader
             | body_nil => inl bodyReader
             end) with
      | inr e => ret (None, Some (Errorf "marshaling request body: " (ForeignError e)))
      | inl bodyReader =>
          match NewRequest_error method (baseURL c ++ path) with
          | Some e => ret (None, Some (Errorf "creating request: " (ForeignError e)))
          | None =>
              emit (EvRequest (newRequest bodyReader))
                match do_result (env attempt) with
                | inr err =>
                    let lastErr := Errorf "executing request: " err in
                    match ctx_err (env attempt) with
                    | Some _ => ret (None, Some lastErr)
                    | None =>
                        (* Network errors are retryable. *)
                        if Z.of_nat attempt <? maxRetries (retry c) then
                          wait attempt None
                            (retryLoop n' (S attempt) bodyReader lastResp (Some lastErr))
                        else ret (None, Some lastErr)
                    end
                | inl resp =>
                    if negb (isRetryableStatus (http.StatusCode resp))
                    then ret (Some resp, None)
                    else
                      let lastResp := Some resp in
                      if Z.of_nat attempt <? maxRetries (retry c) then
                        wait attempt (Some resp)
                          (retryLoop n' (S attempt) bodyReader lastResp lastErr)
                      else retryLoop n' (S attempt) bodyReader lastResp lastErr
                end
          end
      end
  end.

(** The number of iterations of [for attempt := range c.retry.maxRetries + 1]. *)
Definition iterations : nat := Z.to_nat (Int64.add (maxRetries (retry c)) 1).

Definition doRequest : run (option http.Response * option error) :=
  match (match body with
         | body_value (inl jsonBytes) => inl (Some jsonBytes)
         | body_value (inr e) => inr e
         | body_nil => inl None
         end) with
  | inr e => ret (None, Some (Errorf "marshaling request body: " (ForeignError e)))
  | inl bodyReader => retryLoop iterations 0 bodyReader None None
  end.

(** *** The conditions of a call *)

(** [br] is the reader over the bytes [json.Marshal] gives for the body. *)
Definition marshaled (br : option string) : Prop :=
  match body with
  | body_nil => br = None
  | body_value (inl jsonBytes) => br = Some jsonBytes
  | body_value (inr _) => False
  end.

(** The call can send its requests: the body marshals and the method and
    URL make a request. *)
Definition sendable : Prop :=
  (exists br, marshaled br)
  /\ NewRequest_error method (baseURL c ++ path) = None.

(** Attempt [i] gets a response with a retryable status, and the wait after
    it runs to its end. *)
Definition retried (i : nat) : Prop :=
  exists resp d,
    do_result (env i) = inl resp
    /\ isRetryableStatus (http.StatusCode resp) = true
    /\ retryDelay (retry c) (Z.of_nat i) (Some resp) (seed (env i)) = Some d
    /\ wake (env i) = TimerFired.

(** The delays of a client made by [NewClient]. *)
Definition default_delays : Prop :=
  baseDelay (retry c) = defaultBaseDelay /\ maxDelay (retry c) = defaultMaxDelay.

(** Attempt [i] gets a retryable response that carries no usable
    Retry-After, and the wait after it, if any, runs to its end. *)
Definition backed_off (i : nat) : Prop :=
  exists resp,
    do_result (env i) = inl resp
    /\ isRetryableStatus (http.StatusCode resp) = true
    /\ retryAfterDelay (retry c) (Some resp) = None
    /\ wake (env i) = TimerFired.

(** [doJSON].  [result] is nil or the decoder of the caller's result type,
    standing for [json.Unmarshal(respBody, result)]; the model returns the
    decoded value next to the error.  A nil response without an error makes
    [resp.Body] a nil dereference. *)
Definition doJSON {T} (result : option (string -> T + string))
  : run (option T * option error) :=
  let r := doRequest in
  (match fst r with
   | Panics => Panics
   | Returns (_, Some err) => Returns (None, Some err)
   | Returns (None, None) => Panics
   | Returns (Some resp, None) =>
       match checkResponse resp with
       | Some err => Returns (None, Some err)
       | None =>
           match result with
           | None => Returns (None, None)
           | Some decode =>
               match http.BodyErr resp with
               | Some e => Returns (None, Some (Errorf "reading response body: " (ForeignError e)))
               | None =>
                   match decode (http.Body resp) with
                   | inl v => Returns (Some v, None)
                   | inr e =>
                       Returns (None, Some (Errorf
                         ("unmarshaling response (status "
                          ++ pretty (http.StatusCode resp) ++ "): ")
                         (ForeignError e)))
                   end
               end
           end
       end
   end, snd r).

End Call.

End Client.

(** ** A reference library

    One instance of [GoLib], to run the model on concrete calls: the float
    conversion of the amd64 target, the table of [http.StatusText], the
    decoder of [encoding/json] for the struct [errBody], and a request
    constructor that refuses control bytes.

    The decoder checks the syntax of the whole body before it stores
    anything, as [json.Unmarshal] does; then it stores the members
    [error], [message] and [fields], matched without regard to case, and
    skips the others.  A value of the wrong type for its member is a type
    error: the decoder goes on, the member keeps its value (an entry of
    [fields] is stored with the empty string), and the first such error is
    returned at the end.  The bytes of a string literal are taken as they
    are: the decoder does not replace invalid UTF-8. *)
Module Reference.

Definition StatusText (code : Z) : string :=
  match code with
  | 100 => "Continue" | 101 => "Switching Protocols" | 102 => "Processing"
  | 103 => "Early Hints"
  | 200 => "OK" | 201 => "Created" | 202 => "Accepted"
  | 203 => "Non-Authoritative Information" | 204 => "No Content"
  | 205 => "Reset Content" | 206 => "Partial Content" | 207 => "Multi-Status"
  | 208 => "Already Reported" | 226 => "IM Used"
  | 300 => "Multiple Choices" | 301 => "Moved Permanently" | 302 => "Found"
  | 303 => "See Other" | 304 => "Not Modified" | 305 => "Use Proxy"
  | 307 => "Temporary Redirect" | 308 => "Permanent Redirect"
  | 400 => "Bad Request" | 401 => "Unauthorized" | 402 => "Payment Required"
  | 403 => "Forbidden" | 404 => "Not Found" | 405 => "Method Not Allowed"
  | 406 => "Not Acceptable" | 407 => "Proxy Authentication Required"
  | 408 => "Request Timeout" | 409 => "Conflict" | 410 => "Gone"
  | 411 => "Length Required" | 412 => "Precondition Failed"
  | 413 => "Request Entity Too Large" | 414 => "Request URI Too Long"
  | 415 => "Unsupported Media Type" | 416 => "Requested Range Not Satisfiable"
  | 417 => "Expectation Failed" | 418 => "I'm a teapot"
  | 421 => "Misdirected Request" | 422 => "Unprocessable Entity"
  | 423 => "Locked" | 424 => "Failed Dependency" | 425 => "Too Early"
  | 426 => "Upgrade Required" | 428 => "Precondition Required"
  | 429 => "Too Many Requests" | 431 => "Request Header Fields Too Large"
  | 451 => "Unavailable For Legal Reasons"
  | 500 => "Internal Server Error" | 501 => "Not Implemented"
  | 502 => "Bad Gateway" | 503 => "Service Unavailable"
  | 504 => "Gateway Timeout" | 505 => "HTTP Version Not Supported"
  | 506 => "Variant Also Negotiates" | 507 => "Insufficient Storage"
  | 508 => "Loop Detected" | 510 => "Not Extended"
  | 511 => "Network Authentication Required"
  | _ => EmptyString
  end.

Inductive token :=
| TLBrace | TRBrace | TLBracket | TRBracket | TColon | TComma
| TString (s : string)
| TScalar (s : string)
| TBad.

(** The byte of the double quote. *)
Definition dquote : ascii := ascii_of_N 34.

Definition is_space (c : ascii) : bool :=
  let n := N_of_ascii c in ((n =? 32) || (n =? 9) || (n =? 10) || (n =? 13))%N.

Definition punct (c : ascii) : option token :=
  if Ascii.eqb c "{" then Some TLBrace
  else if Ascii.eqb c "}" then Some TRBrace
  else if Ascii.eqb c "[" then Some TLBracket
  else if Ascii.eqb c "]" then Some TRBracket
  else if Ascii.eqb c ":" then Some TColon
  else if Ascii.eqb c "," then Some TComma
  else None.

Definition unescape (c : ascii) : option ascii :=
  if Ascii.eqb c dquote then Some c
  else if Ascii.eqb c "\" then Some c
  else if Ascii.eqb c "/" then Some c
  else if Ascii.eqb c "n" then Some (ascii_of_N 10)
  else if Ascii.eqb c "t" then Some (ascii_of_N 9)
  else if Ascii.eqb c "r" then Some (ascii_of_N 13)
  else if Ascii.eqb c "b" then Some (ascii_of_N 8)
  else if Ascii.eqb c "f" then Some (ascii_of_N 12)
  else None.

Definition hex_digit (c : ascii) : option N :=
  let n := N_of_ascii c in
  if ((48 <=? n) && (n <=? 57))%N then Some (n - 48)%N
  else if ((97 <=? n) && (n <=? 102))%N then Some (n - 87)%N
  else if ((65 <=? n) && (n <=? 70))%N then Some (n - 55)%N
  else None.

(** The code unit of the four hexadecimal digits of a [\u] escape. *)
Definition getu4 (h1 h2 h3 h4 : ascii) : option N :=
  match hex_digit h1, hex_digit h2, hex_digit h3, hex_digit h4 with
  | Some a, Some b, Some c, Some d => Some (((a * 16 + b) * 16 + c) * 16 + d)%N
  | _, _, _, _ => None
  end.

Definition is_surrogate (r : N) : bool := ((55296 <=? r) && (r <? 57344))%N.

(** [utf16.DecodeRune]: the code point of a surrogate pair, if it is
    one. *)
Definition decode_pair (r1 r2 : N) : option N :=
  if ((55296 <=? r1) && (r1 <? 56320) && (56320 <=? r2) && (r2 <? 57344))%N
  then Some ((r1 - 55296) * 1024 + (r2 - 56320) + 65536)%N
  else None.

Definition replacement_char : N := 65533.

(** [utf8.EncodeRune], onto an accumulator that holds the last byte
    first. *)
Definition encode_rune (r : N) (acc : string) : string :=
  if (r <? 128)%N then String (ascii_of_N r) acc
  else if (r <? 2048)%N then
    String (ascii_of_N (128 + r mod 64)) (String (ascii_of_N (192 + r / 64)) acc)
  else if (r <? 65536)%N then
    String (ascii_of_N (128 + r mod 64))
      (String (ascii_of_N (128 + (r / 64) mod 64))
         (String (ascii_of_N (224 + r / 4096)) acc))
  else
    String (ascii_of_N (128 + r mod 64))
      (String (ascii_of_N (128 + (r / 64) mod 64))
         (String (ascii_of_N (128 + (r / 4096) mod 64))
            (String (ascii_of_N (240 + r / 262144)) acc))).

(** The code unit of a [\u] escape at the head of [s], and what follows
    the escape. *)
Definition escape_u (s : string) : option (N * string) :=
  match s with
  | String b (String u (String h1 (String h2 (String h3 (String h4 rest))))) =>
      if Ascii.eqb b "\" && Ascii.eqb u "u"
      then match getu4 h1 h2 h3 h4 with
           | Some r => Some (r, rest)
           | None => None
           end
      else None
  | _ => None
  end.

(** The lexer: [lex] between tokens, [lex_string] inside a string literal
    ([acc] holds its bytes, last first), [lex_scalar] inside a number or a
    literal name. *)
Fixpoint lex (s : string) : list token :=
  match s with
  | EmptyString => []
  | String c rest =>
      if is_space c then lex rest
      else match punct c with
           | Some t => t :: lex rest
           | None =>
               if Ascii.eqb c dquote then lex_string rest EmptyString
               else lex_scalar rest (String c EmptyString)
           end
  end
with lex_string (s : string) (acc : string) : list token :=
  match s with
  | EmptyString => [TBad]
  | String c rest =>
      if Ascii.eqb c dquote then TString (String.rev acc) :: lex rest
      else if Ascii.eqb c "\" then
        match rest with
        | String e rest' =>
            if Ascii.eqb e "u" then
              match rest' with
              | String h1 (String h2 (String h3 (String h4 rest4))) =>
                  match getu4 h1 h2 h3 h4 with
                  | None => [TBad]
                  | Some r =>
                      if is_surrogate r then
                        match rest4 with
                        | String b (String u (String g1 (String g2 (String g3
                            (String g4 rest10))))) =>
                            match (if Ascii.eqb b "\" && Ascii.eqb u "u"
                                   then match getu4 g1 g2 g3 g4 with
                                        | Some r2 => decode_pair r r2
                                        | None => None
                                        end
                                   else None) with
                            | Some dec => lex_string rest10 (encode_rune dec acc)
                            | None => lex_string rest4 (encode_rune replacement_char acc)
                            end
                        | _ => lex_string rest4 (encode_rune replacement_char acc)
                        end
                      else lex_string rest4 (encode_rune r acc)
                  end
              | _ => [TBad]
              end
            else
              match unescape e with
              | Some b => lex_string rest' (String b acc)
              | None => [TBad]
              end
        | EmptyString => [TBad]
        end
      else if (N_of_ascii c <? 32)%N then [TBad]
      else lex_string rest (String c acc)
  end
with lex_scalar (s : string) (acc : string) : list token :=
  match s with
  | EmptyString => [TScalar (String.rev acc)]
  | String c rest =>
      if is_space c then TScalar (String.rev acc) :: lex rest
      else match punct c with
           | Some t => TScalar (String.rev acc) :: t :: lex rest
           | None =>
               if Ascii.eqb c dquote then [TBad]
               else lex_scalar rest (String c acc)
           end
  end.

(** The grammar of a JSON number: where the scan is in it. *)
Inductive nstate :=
| NStart | NMinus | NZero | NInt | NDot | NFrac | NE | NESign | NExp | NBad.

Definition nstep (st : nstate) (c : ascii) : nstate :=
  let n := N_of_ascii c in
  let digit := ((48 <=? n) && (n <=? 57))%N in
  let zero := Ascii.eqb c "0" in
  let dot := Ascii.eqb c "." in
  let e := Ascii.eqb c "e" || Ascii.eqb c "E" in
  match st with
  | NStart => if Ascii.eqb c "-" then NMinus
              else if zero then NZero else if digit then NInt else NBad
  | NMinus => if zero then NZero else if digit then NInt else NBad
  | NZero => if dot then NDot else if e then NE else NBad
  | NInt => if digit then NInt else if dot then NDot else if e then NE else NBad
  | NDot => if digit then NFrac else NBad
  | NFrac => if digit then NFrac else if e then NE else NBad
  | NE => if Ascii.eqb c "+" || Ascii.eqb c "-" then NESign
          else if digit then NExp else NBad
  | NESign | NExp => if digit then NExp else NBad
  | NBad => NBad
  end.

Definition is_number (s : string) : bool :=
  match fold_left nstep (String.list_ascii_of_string s) NStart with
  | NZero | NInt | NFrac | NExp => true
  | _ => false
  end.

Definition valid_scalar (s : string) : bool :=
  String.eqb s "null" || String.eqb s "true" || String.eqb s "false" || is_number s.

Definition lower_string (s : string) : string :=
  String.string_of_list_ascii (map http.lower (String.list_ascii_of_string s)).

(** Where the decoder is in a value it skips: [stack] holds the objects
    ([true]) and arrays ([false]) that are open, the innermost first. *)
Inductive phase :=
| PValue | PValueOrEnd | PKeyOrEnd | PKey | PColon | PCommaOrEnd.

(** What a skipped value is: the body, the value of a member of the body,
    or the value of an entry of [fields]. *)
Inductive jret := RTop | RMember | RField.

(** The decoder reads the tokens with one state: where it is in the body,
    in the object of [fields], or in a value it skips. *)
Inductive jstate :=
| JStart | JKeyOrEnd | JKey | JColon (k : string) | JValue (k : string)
| JCommaOrEnd
| JInKeyOrEnd | JInKey
| JInColon (fk : string) | JInValue (fk : string) | JInCommaOrEnd
| JSkip (ret : jret) (stack : list bool) (ph : phase)
| JDone | JFail.

Record jacc := {
  decoded : errBody.t;
  type_error : bool;
}.

Definition known_string_member (k : string) : bool :=
  String.eqb (lower_string k) "error" || String.eqb (lower_string k) "message".

Definition is_fields (k : string) : bool := String.eqb (lower_string k) "fields".

Definition mismatch (known : bool) (a : jacc) : jacc :=
  if known then {| decoded := decoded a; type_error := true |} else a.

(** A string as the value of the member [k]. *)
Definition set_member (k v : string) (a : jacc) : jacc :=
  let b := decoded a in
  if String.eqb (lower_string k) "error"
  then {| decoded := {| errBody.Error := v; errBody.Message := errBody.Message b;
                        errBody.Fields := errBody.Fields b |};
          type_error := type_error a |}
  else if String.eqb (lower_string k) "message"
  then {| decoded := {| errBody.Error := errBody.Error b; errBody.Message := v;
                        errBody.Fields := errBody.Fields b |};
          type_error := type_error a |}
  else mismatch (is_fields k) a.

(** [null] as the value of the member [k]: a string keeps its value, the
    map becomes nil. *)
Definition set_null (k : string) (a : jacc) : jacc :=
  let b := decoded a in
  if is_fields k
  then {| decoded := {| errBody.Error := errBody.Error b;
                        errBody.Message := errBody.Message b;
                        errBody.Fields := ∅ |};
          type_error := type_error a |}
  else a.

(** The entry [fk] of [fields]. *)
Definition set_field (fk v : string) (a : jacc) : jacc :=
  let b := decoded a in
  {| decoded := {| errBody.Error := errBody.Error b;
                   errBody.Message := errBody.Message b;
                   errBody.Fields := <[ fk := v ]> (errBody.Fields b) |};
     type_error := type_error a |}.

(** The state after a skipped value. *)
Definition after (ret : jret) (stack : list bool) : jstate :=
  match stack with
  | [] => match ret with
          | RTop => JDone
          | RMember => JCommaOrEnd
          | RField => JInCommaOrEnd
          end
  | _ => JSkip ret stack PCommaOrEnd
  end.

Definition skip_step (ret : jret) (stack : list bool) (ph : phase) (t : token)
  : jstate :=
  match ph, t with
  | (PValue | PValueOrEnd), TString _ => JSkip ret stack PCommaOrEnd
  | (PValue | PValueOrEnd), TScalar s =>
      if valid_scalar s then JSkip ret stack PCommaOrEnd else JFail
  | (PValue | PValueOrEnd), TLBrace => JSkip ret (true :: stack) PKeyOrEnd
  | (PValue | PValueOrEnd), TLBracket => JSkip ret (false :: stack) PValueOrEnd
  | (PValueOrEnd | PCommaOrEnd), TRBracket =>
      match stack with
      | false :: rest => after ret rest
      | _ => JFail
      end
  | (PKeyOrEnd | PCommaOrEnd), TRBrace =>
      match stack with
      | true :: rest => after ret rest
      | _ => JFail
      end
  | (PKeyOrEnd | PKey), TString _ => JSkip ret stack PColon
  | PColon, TColon => JSkip ret stack PValue
  | PCommaOrEnd, TComma =>
      match stack with
      | true :: _ => JSkip ret stack PKey
      | false :: _ => JSkip ret stack PValue
      | [] => JFail
      end
  | _, _ => JFail
  end.

Definition jstep (sa : jstate * jacc) (t : token) : jstate * jacc :=
  let '(st, a) := sa in
  match st, t with
  | JStart, TLBrace => (JKeyOrEnd, a)
  | JStart, TLBracket => (JSkip RTop [false] PValueOrEnd, mismatch true a)
  | JStart, TString _ => (JDone, mismatch true a)
  | JStart, TScalar s =>
      if negb (valid_scalar s) then (JFail, a)
      else if String.eqb s "null" then (JDone, a)
      else (JDone, mismatch true a)
  | JKeyOrEnd, TRBrace => (JDone, a)
  | JKeyOrEnd, TString k | JKey, TString k => (JColon k, a)
  | JColon k, TColon => (JValue k, a)
  | JValue k, TString v => (JCommaOrEnd, set_member k v a)
  | JValue k, TScalar s =>
      if negb (valid_scalar s) then (JFail, a)
      else if String.eqb s "null" then (JCommaOrEnd, set_null k a)
      else (JCommaOrEnd, mismatch (known_string_member k || is_fields k) a)
  | JValue k, TLBrace =>
      if is_fields k then (JInKeyOrEnd, a)
      else (JSkip RMember [true] PKeyOrEnd, mismatch (known_string_member k) a)
  | JValue k, TLBracket =>
      (JSkip RMember [false] PValueOrEnd,
       mismatch (known_string_member k || is_fields k) a)
  | JCommaOrEnd, TComma => (JKey, a)
  | JCommaOrEnd, TRBrace => (JDone, a)
  | JInKeyOrEnd, TRBrace => (JCommaOrEnd, a)
  | JInKeyOrEnd, TString fk | JInKey, TString fk => (JInColon fk, a)
  | JInColon fk, TColon => (JInValue fk, a)
  | JInValue fk, TString v => (JInCommaOrEnd, set_field fk v a)
  | JInValue fk, TScalar s =>
      if negb (valid_scalar s) then (JFail, a)
      else if String.eqb s "null" then (JInCommaOrEnd, set_field fk EmptyString a)
      else (JInCommaOrEnd, mismatch true (set_field fk EmptyString a))
  | JInValue fk, TLBrace =>
      (JSkip RField [true] PKeyOrEnd, mismatch true (set_field fk EmptyString a))
  | JInValue fk, TLBracket =>
      (JSkip RField [false] PValueOrEnd, mismatch true (set_field fk EmptyString a))
  | JInCommaOrEnd, TComma => (JInKey, a)
  | JInCommaOrEnd, TRBrace => (JCommaOrEnd, a)
  | JSkip ret stack ph, t => (skip_step ret stack ph t, a)
  | _, _ => (JFail, a)
  end.

Definition json_Unmarshal_errBody (bodyBytes : string)
  : errBody.t * option string :=
  let '(st, a) :=
    fold_left jstep (lex bodyBytes)
      (JStart, {| decoded := errBody.zero; type_error := false |}) in
  match st with
  | JDone =>
      (decoded a,
       if type_error a then Some "json: cannot unmarshal value into Go struct field"
       else None)
  | _ => (errBody.zero, Some "invalid character or unexpected end of JSON input")
  end.

Definition NewRequest_error (method url : string) : option string :=
  if forallb (fun ch => (32 <? N_of_ascii ch)%N && (N_of_ascii ch <? 127)%N)
       (String.list_ascii_of_string (method ++ url))
  then None
  else Some "net/http: invalid method or URL".

End Reference.

#[export] Instance reference_lib : GoLib :=
  {| float64_to_int64_overflow := fun _ => min_signed;
     StatusText := Reference.StatusText;
     json_Unmarshal_errBody := Reference.json_Unmarshal_errBody;
     NewRequest_error := Reference.NewRequest_error |}.

Definition quoted (s : string) : string :=
  String Reference.dquote (s ++ String Reference.dquote EmptyString).

(** The body of the 422 example of the specification. *)
Definition body422 : string :=
  "{" ++ quoted "error" ++ ":" ++ quoted "validation_error" ++ ","
      ++ quoted "message" ++ ":" ++ quoted "name is required" ++ ","
      ++ quoted "fields" ++ ":{" ++ quoted "name" ++ ":" ++ quoted "required" ++ "}}".



(** ** Concrete calls *)

(** A 429 response whose only header is [Retry-After: v]. *)
Definition retryAfterResponse (v : string) : http.Response :=
  {| http.StatusCode := http.StatusTooManyRequests;
     http.Header_ := {[ "Retry-After" := [v] ]};
     http.Body := EmptyString;
     http.BodyErr := None |}.

(** The 422 response of the example, with a request id. *)
Definition resp422 : http.Response :=
  {| http.StatusCode := 422;
     http.Header_ := {[ "X-Request-Id" := ["req-1"] ]};
     http.Body := body422;
     http.BodyErr := None |}.

(** The configuration of the tests, with [n] as the retry budget. *)
Definition example_config (n : Z) : ClientConfig :=
  {| Endpoint := "https://api.example.com/"; APIToken := "test-token-abc123";
     UserAgent := EmptyString; Timeout := 0; MaxRetries := n |}.

(** The client [NewClient] makes of it. *)
Definition example_client (n : Z) : Client :=
  {| baseURL := "https://api.example.com";
     apiToken := "test-token-abc123";
     userAgent := defaultUserAgent;
     httpClient_Timeout := defaultTimeout;
     retry := {| baseDelay := defaultBaseDelay; maxDelay := defaultMaxDelay;
                 maxRetries := n |} |}.

Definition response (status : Z) (body : string) : http.Response :=
  {| http.StatusCode := status; http.Header_ := ∅;
     http.Body := body; http.BodyErr := None |}.

(** The attempt is answered by [r]; the wait after it, if any, runs to its
    end. *)
Definition answered (r : http.Response) : Attempt :=
  {| do_result := inl r; ctx_err := None; seed := 0; wake := TimerFired |}.

(** The attempt is answered by [r]; the context is cancelled during the
    wait after it. *)
Definition answered_then_cancelled (r : http.Response) : Attempt :=
  {| do_result := inl r; ctx_err := None; seed := 0;
     wake := CtxDone (ForeignError "context canceled") |}.

(** A server that answers the first [k] requests with [r1] and the later
    ones with [r2]. *)
Definition server (k : nat) (r1 r2 : http.Response) : nat -> Attempt :=
  fun i => if (i <? k)%nat then answered r1 else answered r2.

Definition org_path : string := "/api/v1/organization".
Definition org_payload : string := "{}".

(** ** The rest of the package and its callers *)

(** *** errors.go: the text of an error *)

(** The method [Error] of [APIError]. *)
Definition APIError_Error (e : APIError) : string :=
  if negb (String.eqb (RequestID e) EmptyString)
  then "zenfra API error (status " ++ pretty (StatusCode e)
       ++ ", request_id " ++ RequestID e ++ "): " ++ Message e
  else "zenfra API error (status " ++ pretty (StatusCode e) ++ "): " ++ Message e.

(** The method [Error] of an error value: the structs of the package
    inherit it from the embedded [APIError], [fmt.Errorf] puts its prefix
    before the text of the wrapped error. *)
Fixpoint Error (err : error) : string :=
  match err with
  | APIErrorPtr e | NotFoundErrorPtr e | ConflictErrorPtr e
  | UnauthorizedErrorPtr e | ForbiddenErrorPtr e | ValidationErrorPtr e _ =>
      APIError_Error e
  | Errorf prefix inner => prefix ++ Error inner
  | ForeignError msg => msg
  end.

(** *** Traces *)

(** The waits of a trace: their durations. *)
Definition sleeps (t : list Event) : list Z :=
  omap (fun ev => match ev with EvSleep d _ => Some d | _ => None end) t.

(** The sum of the waits. *)
Definition total (l : list Z) : Z := foldr Z.add 0 l.

(** Attempt [i] fails in the transport while the context is live, and the
    wait after it runs to its end. *)
Definition net_retried `{GoLib} (c : Client) (env : nat -> Attempt) (i : nat) : Prop :=
  exists err d,
    do_result (env i) = inr err
    /\ ctx_err (env i) = None
    /\ retryDelay (retry c) (Z.of_nat i) None (seed (env i)) = Some d
    /\ wake (env i) = TimerFired.

(** The final response of a call: attempt [k] is answered by [resp], whose
    status is not retryable, after [k] retried attempts, within a budget in
    range. *)
Definition final_response `{GoLib} (c : Client) (env : nat -> Attempt)
  (k : nat) (resp : http.Response) : Prop :=
  Z.of_nat k <= maxRetries (retry c) < max_signed
  /\ (forall i, (i < k)%nat -> retried c env i \/ net_retried c env i)
  /\ do_result (env k) = inl resp
  /\ isRetryableStatus (http.StatusCode resp) = false.

(** *** The methods of the client *)

Definition MethodPost : string := "POST".
Definition MethodPut : string := "PUT".
Definition MethodPatch : string := "PATCH".
Definition MethodDelete : string := "DELETE".

(** [ListStacksOptions]: three optional query parameters. *)
Record ListStacksOptions := {
  SpaceID : option string;
  Limit : option Z;
  Offset : option Z;
}.

(** The path [ListStacks] builds from its options. *)
Definition ListStacks_path (opts : option ListStacksOptions) : string :=
  let path := "/api/v1/stacks" in
  let sep := "?" in
  match opts with
  | Some o =>
      let '(path, sep) :=
        match SpaceID o with
        | Some id => (path ++ sep ++ "space_id=" ++ id, "&")
        | None => (path, sep)
        end in
      let '(path, sep) :=
        match Limit o with
        | Some n => (path ++ sep ++ ("limit=" ++ pretty n), "&")
        | None => (path, sep)
        end in
      match Offset o with
      | Some n => path ++ sep ++ ("offset=" ++ pretty n)
      | None => path
      end
  | None => path
  end.

(** The query parameters of [ListStacks] that are set, in the order of the
    code. *)
Definition ListStacks_params (o : ListStacksOptions) : list string :=
  omap id
    [ (fun id => "space_id=" ++ id) <$> SpaceID o;
      (fun n => "limit=" ++ pretty n) <$> Limit o;
      (fun n => "offset=" ++ pretty n) <$> Offset o ].

Section Methods.
Context `{GoLib}.
Variable c : Client.
Variable env : nat -> Attempt.

(** The pattern of the methods that decode a result:
    [if err := c.doJSON(...); err != nil { return nil, fmt.Errorf(op + ": %w", err) }
     return &result, nil]. *)
Definition jsonCall {T} (op method path : string) (body : any_body)
  (result : option (string -> T + string)) : run (option T * option error) :=
  let r := doJSON c env method path body result in
  (match fst r with
   | Returns (_, Some err) => Returns (None, Some (Errorf (op ++ ": ") err))
   | other => other
   end, snd r).

(** The pattern of the delete methods: [doRequest], then [checkResponse] on
    the response, each error wrapped with the name of the operation.  A nil
    response without an error makes [resp.Body] a nil dereference. *)
Definition deleteCall (op path : string) : run (option error) :=
  let r := doRequest c env MethodDelete path body_nil in
  (match fst r with
   | Panics => Panics
   | Returns (_, Some err) => Returns (Some (Errorf (op ++ ": ") err))
   | Returns (None, None) => Panics
   | Returns (Some resp, None) =>
       match checkResponse resp with
       | Some err => Returns (Some (Errorf (op ++ ": ") err))
       | None => Returns None
       end
   end, snd r).

(** The methods that return only an error. *)
Definition error_of {T} (r : run (option T * option error)) : run (option error) :=
  (match fst r with
   | Returns (_, err) => Returns err
   | Panics => Panics
   end, snd r).

(** bundles.go.  A request struct comes with what [json.Marshal] returns
    for it, a result with the decoder of its type. *)
Definition CreateBundle {T} (req : string + string) (decode : string -> T + string) :=
  jsonCall "create bundle" MethodPost "/api/v1/bundles" (body_value req) (Some decode).

Definition GetBundle {T} (id : string) (decode : string -> T + string) :=
  jsonCall "get bundle" http.MethodGet ("/api/v1/bundles/" ++ id) body_nil (Some decode).

Definition ListBundles {T} (decode : string -> T + string) :=
  jsonCall "list bundles" http.MethodGet "/api/v1/bundles" body_nil (Some decode).

Definition UpdateBundle {T} (id : string) (req : string + string)
  (decode : string -> T + string) :=
  jsonCall "update bundle" MethodPatch ("/api/v1/bundles/" ++ id) (body_value req)
    (Some decode).

Definition UpdateBundleContent {T} (id : string) (req : string + string)
  (decode : string -> T + string) :=
  jsonCall "update bundle content" MethodPut ("/api/v1/bundles/" ++ id ++ "/content")
    (body_value req) (Some decode).

Definition DeleteBundle (id : string) : run (option error) :=
  deleteCall "delete bundle" ("/api/v1/bundles/" ++ id).

(** vcs_integrations.go. *)
Definition CreateVCSIntegration {T} (req : string + string)
  (decode : string -> T + string) :=
  jsonCall "create vcs integration" MethodPost "/api/v1/vcs/integrations"
    (body_value req) (Some decode).

Definition GetVCSIntegration {T} (id : string) (decode : string -> T + string) :=
  jsonCall "get vcs integration" http.MethodGet ("/api/v1/vcs/integrations/" ++ id)
    body_nil (Some decode).

Definition ListVCSIntegrations {T} (decode : string -> T + string) :=
  jsonCall "list vcs integrations" http.MethodGet "/api/v1/vcs/integrations"
    body_nil (Some decode).

Definition UpdateVCSIntegration {T} (id : string) (req : string + string)
  (decode : string -> T + string) :=
  jsonCall "update vcs integration" MethodPatch ("/api/v1/vcs/integrations/" ++ id)
    (body_value req) (Some decode).

Definition DeleteVCSIntegration (id : string) : run (option error) :=
  deleteCall "delete vcs integration" ("/api/v1/vcs/integrations/" ++ id).

(** The delete methods of the other files of the package. *)
Definition DeleteSpace (id : string) : run (option error) :=
  deleteCall "delete space" ("/api/v1/spaces/" ++ id).

Definition DeleteStack (id : string) : run (option error) :=
  deleteCall "delete stack" ("/api/v1/stacks/" ++ id).

Definition DeleteToken (id : string) : run (option error) :=
  deleteCall "delete token" ("/api/v1/tokens/" ++ id).

Definition DeleteWorkerPool (id : string) : run (option error) :=
  deleteCall "delete worker pool" ("/api/v1/worker-pools/" ++ id).

(** stacks.go. *)
Definition ListStacks {T} (opts : option ListStacksOptions)
  (decode : string -> T + string) :=
  jsonCall "list stacks" http.MethodGet (ListStacks_path opts) body_nil (Some decode).

(** bundle_attachments.go.  [marshal_AttachBundleRequest] is [json.Marshal]
    on the request struct, which has one string field and always
    marshals. *)
Variable marshal_AttachBundleRequest : string -> string.

Definition AttachBundle (stackID bundleID : string) : run (option error) :=
  error_of (jsonCall (T := unit) "attach bundle" MethodPost
              ("/api/v1/stacks/" ++ stackID ++ "/bundles")
              (body_value (inl (marshal_AttachBundleRequest bundleID))) None).

Definition DetachBundle (stackID bundleID : string) : run (option error) :=
  deleteCall "detach bundle" ("/api/v1/stacks/" ++ stackID ++ "/bundles/" ++ bundleID).

End Methods.

(** *** The bundle attachment resource *)

(** [strings.SplitN(s, sep, 2)] for a separator of one byte: [s] alone when
    it has no separator, else what is before the first separator and what
    is after it. *)
Fixpoint SplitN2 (s : string) (sep : ascii) : list string :=
  match s with
  | EmptyString => [EmptyString]
  | String ch rest =>
      if Ascii.eqb ch sep then [EmptyString; rest]
      else match SplitN2 rest sep with
           | [a] => [String ch a]
           | a :: more => String ch a :: more
           | [] => []
           end
  end.

Record BundleAttachmentModel := {
  ID : string;
  StackID : string;
  BundleID : string;
}.

(** An error diagnostic: summary and detail. *)
Record Diagnostic := {
  Summary : string;
  Detail : string;
}.

(** [ImportState]: the state it sets, or the diagnostic it adds. *)
Definition ImportState (id : string) : BundleAttachmentModel + Diagnostic :=
  match SplitN2 id ":" with
  | [stackID; bundleID] =>
      if String.eqb stackID EmptyString || String.eqb bundleID EmptyString
      then inr {| Summary := "Invalid Import ID";
                  Detail := "Expected format: stack_id:bundle_id, got: " ++ id |}
      else inl {| ID := id; StackID := stackID; BundleID := bundleID |}
  | _ => inr {| Summary := "Invalid Import ID";
                Detail := "Expected format: stack_id:bundle_id, got: " ++ id |}
  end.

Section BundleAttachmentResource.
Context `{GoLib}.
Variable c : Client.
Variable env : nat -> Attempt.
Variable marshal_AttachBundleRequest : string -> string.

(** [Create] on a plan that decodes to [stackID] and [bundleID]: the state
    it sets, or the diagnostic it adds. *)
Definition Create (stackID bundleID : string)
  : run (BundleAttachmentModel + Diagnostic) :=
  let r := AttachBundle c env marshal_AttachBundleRequest stackID bundleID in
  (match fst r with
   | Panics => Panics
   | Returns (Some err) =>
       Returns (inr {| Summary := "Error Attaching Bundle";
                       Detail := "Could not attach bundle " ++ bundleID
                                 ++ " to stack " ++ stackID ++ ": " ++ Error err |})
   | Returns None =>
       Returns (inl {| ID := stackID ++ ":" ++ bundleID;
                       StackID := stackID; BundleID := bundleID |})
   end, snd r).

(** [Delete] on a state that decodes to [stackID] and [bundleID]: the
    diagnostics it adds. *)
Definition Delete (stackID bundleID : string) : run (list Diagnostic) :=
  let r := DetachBundle c env stackID bundleID in
  (match fst r with
   | Panics => Panics
   | Returns (Some err) =>
       if IsNotFound err then Returns []
       else Returns [{| Summary := "Error Detaching Bundle";
                        Detail := "Could not detach bundle " ++ bundleID
                                  ++ " from stack " ++ stackID ++ ": " ++ Error err |}]
   | Returns None => Returns []
   end, snd r).

End BundleAttachmentResource.

(** *** More concrete calls *)

(** The attempt fails in the transport while the context is live; the wait
    after it, if any, runs to its end. *)
Definition failed (msg : string) : Attempt :=
  {| do_result := inr (ForeignError msg); ctx_err := None; seed := 0;
     wake := TimerFired |}.

Definition r503 : http.Response := response 503 EmptyString.
Definition r404 : http.Response := response 404 EmptyString.
Definition r200 : http.Response := response 200 org_payload.

(** A decoder that accepts every body. *)
Definition decode_any (_ : string) : unit + string := inl tt.

(** * Properties *)

(** ** Machine arithmetic *)

Lemma wrap64_range z : min_signed <= wrap64 z <= max_signed.
Proof.
  unfold wrap64, min_signed, max_signed.
  pose proof (Z.mod_pos_bound (z + 2 ^ 63) (2 ^ 64) ltac:(lia)). lia.
Qed.

Lemma wrap64_id z : min_signed <= z <= max_signed -> wrap64 z = z.
Proof.
  unfold wrap64, min_signed, max_signed. intros Hz.
  rewrite Z.mod_small by lia. lia.
Qed.

(** Wrapping never increases a value that is not below int64. *)
Lemma wrap64_le z : min_signed <= z -> wrap64 z <= z.
Proof.
  unfold wrap64, min_signed. intros Hz.
  pose proof (Z.mod_le (z + 2 ^ 63) (2 ^ 64) ltac:(lia) ltac:(lia)). lia.
Qed.

Lemma Int64N_Some seed n j :
  Int64N seed n = Some j -> 0 < n /\ 0 <= j < n.
Proof.
  unfold Int64N. destruct (Z.leb_spec n 0); [discriminate|].
  intros [= <-]. split; [lia|]. apply Z.mod_pos_bound. lia.
Qed.

Lemma quot2_pos d : 0 < Int64.div d 2 -> 2 <= d.
Proof.
  unfold Int64.div. intros Hq. pose proof (Z.quot_rem' d 2) as Hd.
  destruct (Z.lt_ge_cases d 0).
  - pose proof (Z.quot_opp_l d 2 ltac:(lia)).
    pose proof (Z.quot_pos (- d) 2 ltac:(lia) ltac:(lia)). lia.
  - pose proof (Z.rem_bound_pos d 2 ltac:(lia) ltac:(lia)). lia.
Qed.

(** Every value of the interval is drawn for some seed. *)
Lemma Int64N_surjective n j : 0 <= j < n -> Int64N j n = Some j.
Proof.
  intros Hj. unfold Int64N. destruct (Z.leb_spec n 0); [lia|].
  now rewrite Z.mod_small.
Qed.

(** ** C1: the jittered backoff delay and the maximum delay *)

Section RetryDelay.
Context `{GoLib}.

Lemma retryDelay_backoff cfg attempt resp seed :
  retryAfterDelay cfg resp = None ->
  retryDelay cfg attempt resp seed = backoffDelay cfg attempt seed.
Proof. unfold retryDelay. now intros ->. Qed.

Lemma cappedDelay_le cfg attempt : cappedDelay cfg attempt <= maxDelay cfg.
Proof.
  unfold cappedDelay.
  destruct (Z.ltb_spec (maxDelay cfg) (Int64.mul (baseDelay cfg) (pow2_Duration attempt))); lia.
Qed.

Lemma backoffDelay_Some cfg attempt seed d :
  backoffDelay cfg attempt seed = Some d ->
  let delay := cappedDelay cfg attempt in
  2 <= delay /\
  d = wrap64 (wrap64 (delay / 2 + delay / 4) + seed mod (delay / 2)).
Proof.
  unfold backoffDelay.
  set (delay := cappedDelay cfg attempt). cbv zeta.
  destruct (Int64N seed (Int64.div delay 2)) as [j|] eqn:Hj; [|discriminate].
  intros [= <-]. unfold Int64.div, Int64.add in *.
  apply Int64N_Some in Hj as Hr. destruct Hr as [Hpos _].
  assert (Hd : 2 <= delay) by (apply quot2_pos; exact Hpos).
  split; [assumption|].
  rewrite !Z.quot_div_nonneg in * by lia.
  unfold Int64N in Hj. destruct (Z.leb_spec (delay / 2) 0); [discriminate|].
  now injection Hj as <-.
Qed.

(** C1, as the code has it: on the exponential-backoff path the jittered
    delay stays strictly below five quarters of the configured maximum
    delay, whatever the random source draws (the jitter adds up to a quarter
    of the capped delay on top of it). *)
Theorem retryDelay_backoff_bound cfg attempt resp seed d :
  retryAfterDelay cfg resp = None ->
  retryDelay cfg attempt resp seed = Some d ->
  4 * d < 5 * maxDelay cfg.
Proof.
  intros Hpath Hd. rewrite retryDelay_backoff in Hd by assumption.
  apply backoffDelay_Some in Hd. cbv zeta in Hd. destruct Hd as [H2 ->].
  pose proof (cappedDelay_le cfg attempt) as Hcap.
  set (delay := cappedDelay cfg attempt) in *.
  pose proof (Z.mod_pos_bound seed (delay / 2) ltac:(apply Z.div_str_pos; lia)) as Hj.
  pose proof (wrap64_range (delay / 2 + delay / 4)) as Hr.
  pose proof (wrap64_le (delay / 2 + delay / 4)
                ltac:(unfold min_signed; pose proof (Z.div_pos delay 2);
                      pose proof (Z.div_pos delay 4); lia)) as Hw1.
  pose proof (wrap64_le (wrap64 (delay / 2 + delay / 4) + seed mod (delay / 2))
                ltac:(lia)) as Hw2.
  pose proof (Z.mul_div_le delay 2 ltac:(lia)).
  pose proof (Z.mul_div_le delay 4 ltac:(lia)).
  lia.
Qed.

End RetryDelay.

(** C1's bound on attempt 6 of the default configuration with a jitter draw
    of 14s. *)
Lemma retryDelay_backoff_bound_witness :
  4 * 36500000000 < 5 * maxDelay defaultRetryConfig.
Proof.
  apply (retryDelay_backoff_bound (H := reference_lib)
           defaultRetryConfig 6 None 14000000000 36500000000);
    vm_compute; reflexivity.
Defined.

(** C1 as stated fails: with the default configuration the delay of attempt
    6 is capped at 30s, and a jitter draw of 14s gives 36.5s. *)
Lemma retryDelay_exceeds_maxDelay :
  retryDelay (H := reference_lib) defaultRetryConfig 6 None 14000000000
    = Some 36500000000
  /\ ~ 36500000000 <= maxDelay defaultRetryConfig.
Proof. split; [vm_compute; reflexivity | vm_compute; intros Hle; now apply Hle]. Qed.

(** ** C5: honouring Retry-After *)

Section RetryAfter.
Context `{GoLib}.

Lemma Atoi_empty : Atoi EmptyString = None.
Proof. reflexivity. Qed.

(** X10.  Where the multiplication by [time.Second] does not overflow, that is
    for at most 9223372036 seconds, the delay is the header's value capped
    at the maximum, and no jitter is applied. *)
Lemma retryDelay_RetryAfter cfg attempt r seed N :
  http.StatusCode r = http.StatusTooManyRequests ->
  Atoi (http.Get (http.Header_ r) "Retry-After") = Some N ->
  0 < N ->
  N * Second <= max_signed ->
  retryDelay cfg attempt (Some r) seed = Some (Z.min (N * Second) (maxDelay cfg)).
Proof.
  intros Hs Ha Hpos Hfit. unfold retryDelay, retryAfterDelay.
  rewrite Hs, Z.eqb_refl.
  destruct (String.eqb_spec (http.Get (http.Header_ r) "Retry-After") EmptyString) as [He|_].
  { rewrite He in Ha. discriminate. }
  rewrite Ha. destruct (Z.ltb_spec 0 N); [|lia].
  unfold Int64.mul. rewrite wrap64_id by (unfold min_signed, Second in *; lia).
  f_equal. destruct (Z.ltb_spec (maxDelay cfg) (N * Second)); lia.
Qed.

(** Whatever the header holds, the Retry-After path never returns more than
    the maximum delay. *)
Lemma retryAfterDelay_le cfg resp d :
  retryAfterDelay cfg resp = Some d -> d <= maxDelay cfg.
Proof.
  unfold retryAfterDelay. intros Hd.
  repeat match type of Hd with
         | match ?x with _ => _ end = _ => destruct x eqn:?; try discriminate
         | (if ?b then _ else _) = _ => destruct b eqn:?; try discriminate
         end.
  injection Hd as <-.
  match goal with |- context [?a <? ?b] => destruct (Z.ltb_spec a b) end; lia.
Qed.

End RetryAfter.

(** C5 on the header [Retry-After: 9223372037]: the value parses as a
    positive integer, the multiplication by [time.Second] wraps around, the
    cap does not apply to the negative product, and the delay returned is
    negative instead of the maximum delay of 30s. *)
Theorem retryDelay_RetryAfter_overflow :
  Atoi "9223372037" = Some 9223372037
  /\ (forall attempt seed,
        retryDelay (H := reference_lib) defaultRetryConfig attempt
          (Some (retryAfterResponse "9223372037")) seed
        = Some (-9223372036709551616))
  /\ Z.min (9223372037 * Second) (maxDelay defaultRetryConfig) = 30 * Second.
Proof.
  split; [reflexivity|]. split; [|reflexivity].
  intros attempt seed. unfold retryDelay.
  replace (retryAfterDelay defaultRetryConfig (Some (retryAfterResponse "9223372037")))
    with (Some (-9223372036709551616)) by (vm_compute; reflexivity).
  reflexivity.
Qed.

(** ** C10: the retry budget of a new client *)

Lemma NewClient_ok cfg :
  Endpoint cfg <> EmptyString -> APIToken cfg <> EmptyString ->
  exists c, NewClient cfg = inl c
    /\ baseURL c = TrimRight (Endpoint cfg) "/"
    /\ apiToken c = APIToken cfg
    /\ baseDelay (retry c) = defaultBaseDelay
    /\ maxDelay (retry c) = defaultMaxDelay
    /\ maxRetries (retry c)
       = (if 0 <? MaxRetries cfg then MaxRetries cfg else defaultMaxRetries).
Proof.
  intros He Ht. unfold NewClient.
  destruct (String.eqb_spec (Endpoint cfg) EmptyString); [contradiction|].
  destruct (String.eqb_spec (APIToken cfg) EmptyString); [contradiction|].
  eexists. split; [reflexivity|]. cbn.
  repeat split; destruct (0 <? MaxRetries cfg); reflexivity.
Qed.

(** The configuration errors of [NewClient]. *)
Lemma NewClient_error cfg :
  Endpoint cfg = EmptyString \/ APIToken cfg = EmptyString ->
  exists e, NewClient cfg = inr e.
Proof.
  unfold NewClient. intros [-> | ->]; cbn; [eauto|].
  destruct (String.eqb (Endpoint cfg) EmptyString); eauto.
Qed.

(** C10: with an endpoint and a token, [NewClient] succeeds; a [MaxRetries]
    of zero or less gives the default budget of 3 retries, a positive one is
    taken as it is, so the budget of a client is never zero. *)
Theorem NewClient_retry_budget cfg :
  Endpoint cfg <> EmptyString -> APIToken cfg <> EmptyString ->
  exists c, NewClient cfg = inl c
    /\ (MaxRetries cfg <= 0 -> retry c = defaultRetryConfig /\ maxRetries (retry c) = 3)
    /\ (0 < MaxRetries cfg -> maxRetries (retry c) = MaxRetries cfg)
    /\ 0 < maxRetries (retry c).
Proof.
  intros He Ht. unfold NewClient.
  destruct (String.eqb_spec (Endpoint cfg) EmptyString); [contradiction|].
  destruct (String.eqb_spec (APIToken cfg) EmptyString); [contradiction|].
  eexists. split; [reflexivity|]. cbn.
  destruct (Z.ltb_spec 0 (MaxRetries cfg)); cbn; repeat split; try lia; reflexivity.
Qed.

(** C10 on a configuration with [MaxRetries = 0]. *)
Lemma NewClient_retry_budget_witness :
  exists c, NewClient (example_config 0) = inl c
    /\ (MaxRetries (example_config 0) <= 0 ->
        retry c = defaultRetryConfig /\ maxRetries (retry c) = 3)
    /\ (0 < MaxRetries (example_config 0) ->
        maxRetries (retry c) = MaxRetries (example_config 0))
    /\ 0 < maxRetries (retry c).
Proof.
  apply (NewClient_retry_budget (example_config 0)); cbn; discriminate.
Defined.

(** ** C9: the base URL *)

Lemma TrimRight_idem s cutset :
  TrimRight (TrimRight s cutset) cutset = TrimRight s cutset.
Proof.
  induction s as [|c rest IH]; [reflexivity|]. cbn [TrimRight].
  destruct (TrimRight rest cutset) as [|a t] eqn:Ht.
  - destruct (byte_in c cutset) eqn:Hc; [reflexivity|].
    cbn [TrimRight]. now rewrite Hc.
  - change (TrimRight (String c (String a t)) cutset)
      with (match TrimRight (String a t) cutset with
            | EmptyString => if byte_in c cutset then EmptyString else String c EmptyString
            | u => String c u
            end).
    now rewrite IH.
Qed.

(** The trimmed string does not end in a byte of the cutset. *)
Lemma TrimRight_no_suffix s cutset c :
  byte_in c cutset = true ->
  HasSuffix (TrimRight s cutset) (String c EmptyString) = false.
Proof.
  intros Hc. induction s as [|b rest IH]; [reflexivity|]. cbn [TrimRight].
  destruct (TrimRight rest cutset) as [|a t] eqn:Ht.
  - destruct (byte_in b cutset) eqn:Hb; [reflexivity|].
    cbn. destruct (Ascii.eqb_spec b c) as [->|_]; [congruence|reflexivity].
  - cbn [HasSuffix] in *. rewrite IH, orb_false_r. cbn.
    now destruct (Ascii.eqb b c).
Qed.

Lemma append_nil_l (t : string) : EmptyString ++ t = t.
Proof. reflexivity. Qed.

Lemma append_cons c (s t : string) : String c s ++ t = String c (s ++ t).
Proof. reflexivity. Qed.

(** Trimming removes only bytes of the cutset, and only at the end. *)
Lemma TrimRight_removed s cutset :
  exists t, s = TrimRight s cutset ++ t
    /\ Forall (fun b => byte_in b cutset = true) (String.list_ascii_of_string t).
Proof.
  induction s as [|c rest (t & Hs & Ht)].
  - exists EmptyString. split; [reflexivity|constructor].
  - cbn [TrimRight]. destruct (TrimRight rest cutset) as [|a u] eqn:Hu;
      rewrite ?Hu in Hs.
    + rewrite append_nil_l in Hs. subst t.
      destruct (byte_in c cutset) eqn:Hc.
      * exists (String c rest). split; [reflexivity|].
        cbn [String.list_ascii_of_string]. now constructor.
      * exists rest. split; [reflexivity | assumption].
    + exists t. split; [|assumption]. rewrite append_cons. f_equal. exact Hs.
Qed.

(** A string that does not end in a byte of the cutset is left as it is. *)
Lemma TrimRight_fixed s :
  HasSuffix s "/" = false -> TrimRight s "/" = s.
Proof.
  induction s as [|c rest IH]; [reflexivity|]. cbn [HasSuffix TrimRight].
  intros Hs. apply orb_false_elim in Hs as [Hc Hrest].
  rewrite (IH Hrest). destruct rest; [|reflexivity].
  cbn in *. destruct (Ascii.eqb_spec c "/") as [->|_]; [discriminate|reflexivity].
Qed.

Section RequestURL.
Context `{GoLib}.

(** Every request of the loop is the request [newRequest] builds. *)
Lemma retryLoop_requests c env method path body n :
  forall attempt br lastResp lastErr req,
    In req (requests (snd (retryLoop c env method path body n attempt br lastResp lastErr))) ->
    http.URL req = baseURL c ++ path /\ http.Method req = method.
Proof.
  induction n as [|n IH]; intros attempt br lastResp lastErr req; cbn [retryLoop].
  - intros [].
  - unfold wait, emit, ret, panic.
    repeat match goal with
           | |- context [match ?x with _ => _ end] => destruct x eqn:?
           end;
      cbn; intros Hin;
      repeat match goal with
             | Hin : _ \/ _ |- _ => destruct Hin as [<- | Hin]
             | Hin : False |- _ => destruct Hin
             | Hin : In _ _ |- _ => apply IH in Hin
             end; auto.
Qed.

Lemma doRequest_requests c env method path body req :
  In req (requests (snd (doRequest c env method path body))) ->
  http.URL req = baseURL c ++ path /\ http.Method req = method.
Proof.
  unfold doRequest.
  destruct body as [|[b|e]]; cbn; try (intros []); apply retryLoop_requests.
Qed.

(** C9: the client stores the endpoint without its trailing slashes, the
    URL of every request a call issues is that base URL followed by the
    path, and trimming is idempotent. *)
Theorem NewClient_baseURL cfg :
  Endpoint cfg <> EmptyString -> APIToken cfg <> EmptyString ->
  exists c, NewClient cfg = inl c
    /\ baseURL c = TrimRight (Endpoint cfg) "/"
    /\ HasSuffix (baseURL c) "/" = false
    /\ (exists slashes, Endpoint cfg = baseURL c ++ slashes
          /\ Forall (fun b => b = "/"%char) (String.list_ascii_of_string slashes))
    /\ TrimRight (baseURL c) "/" = baseURL c
    /\ (forall env method path body req,
          In req (requests (snd (doRequest c env method path body))) ->
          http.URL req = TrimRight (Endpoint cfg) "/" ++ path)
    /\ (forall T env method path body result req,
          In req (requests (snd (doJSON (T := T) c env method path body result))) ->
          http.URL req = TrimRight (Endpoint cfg) "/" ++ path)
    /\ TrimRight "https://api.example.com/" "/" = "https://api.example.com".
Proof.
  intros He Ht. destruct (NewClient_ok cfg He Ht) as (c & Hc & Hb & _).
  exists c. split; [exact Hc|]. split; [exact Hb|]. rewrite Hb.
  split; [now apply TrimRight_no_suffix|].
  split.
  { destruct (TrimRight_removed (Endpoint cfg) "/") as (t & Hs & Hall).
    exists t. split; [exact Hs|]. eapply Forall_impl; [exact Hall|].
    intros b Hbin. cbn in Hbin. destruct (Ascii.eqb_spec b "/"); [assumption|discriminate]. }
  split; [apply TrimRight_idem|].
  split; [|split; [|reflexivity]].
  - intros env method path body req Hin. rewrite <- Hb.
    now apply doRequest_requests in Hin.
  - intros T env method path body result req Hin. rewrite <- Hb.
    unfold doJSON in Hin. cbn [snd] in Hin.
    now apply doRequest_requests in Hin.
Qed.

End RequestURL.

(** ** C6 and C7: the error classifier *)

Section Classifier.
Context `{GoLib}.

Lemma checkResponse_2xx resp :
  is_2xx (http.StatusCode resp) <-> checkResponse resp = None.
Proof.
  unfold is_2xx, checkResponse.
  destruct (Z.leb_spec 200 (http.StatusCode resp)), (Z.ltb_spec (http.StatusCode resp) 300);
    cbn [andb]; try destruct (json_Unmarshal_errBody _); split; intros; try lia; try easy.
Qed.

(** The fields of the [APIError] inside the error of a non-2xx response. *)
Lemma checkResponse_non2xx resp :
  ~ is_2xx (http.StatusCode resp) ->
  exists err e,
    checkResponse resp = Some err
    /\ apiError_of err = Some e
    /\ kind_of err = Some (spec_kind_of_status (http.StatusCode resp))
    /\ StatusCode e = http.StatusCode resp
    /\ RequestID e = http.Get (http.Header_ resp) "X-Request-ID"
    /\ Message e =
       (let (b, perr) := json_Unmarshal_errBody (http.Body resp) in
        let m := match perr with
                 | None => if negb (String.eqb (errBody.Message b) EmptyString)
                           then errBody.Message b
                           else if negb (String.eqb (errBody.Error b) EmptyString)
                           then errBody.Error b else EmptyString
                 | Some _ => EmptyString
                 end in
        if String.eqb m EmptyString then StatusText (http.StatusCode resp) else m)
    /\ (kind_of err = Some validation ->
        err = ValidationErrorPtr e (errBody.Fields (fst (json_Unmarshal_errBody (http.Body resp))))).
Proof.
  intros Hnot. unfold checkResponse.
  destruct ((200 <=? http.StatusCode resp) && (http.StatusCode resp <? 300)) eqn:H2.
  { exfalso. apply Hnot. unfold is_2xx. apply andb_true_iff in H2 as [?%Z.leb_le ?%Z.ltb_lt]. lia. }
  destruct (json_Unmarshal_errBody (http.Body resp)) as [b perr].
  assert (Hcases :
    http.StatusCode resp = 404 \/ http.StatusCode resp = 409 \/
    http.StatusCode resp = 401 \/ http.StatusCode resp = 403 \/
    http.StatusCode resp = 400 \/ http.StatusCode resp = 422 \/
    (http.StatusCode resp <> 404 /\ http.StatusCode resp <> 409 /\
     http.StatusCode resp <> 401 /\ http.StatusCode resp <> 403 /\
     http.StatusCode resp <> 400 /\ http.StatusCode resp <> 422)) by lia.
  destruct Hcases as [Hs|[Hs|[Hs|[Hs|[Hs|[Hs|Hs]]]]]].
  1-6: rewrite Hs; eexists _, _; (split; [reflexivity|]); cbn;
       repeat split; try reflexivity; try discriminate.
  destruct Hs as (H404 & H409 & H401 & H403 & H400 & H422).
  unfold http.StatusNotFound, http.StatusConflict, http.StatusUnauthorized,
    http.StatusForbidden, http.StatusBadRequest, http.StatusUnprocessableEntity.
  repeat match goal with
         | |- context [?a =? ?b] => destruct (Z.eqb_spec a b); [contradiction|]
         end.
  cbn [orb]. eexists _, _. split; [reflexivity|]. cbn.
  repeat split; try discriminate.
  f_equal. unfold spec_kind_of_status.
  destruct (http.StatusCode resp) as [|p|p]; try reflexivity.
  repeat (destruct p as [p|p|]; try reflexivity; try contradiction).
Qed.

Lemma kind_of_status_cases s :
  (s = 404 /\ spec_kind_of_status s = not_found)
  \/ (s = 409 /\ spec_kind_of_status s = conflict)
  \/ (s = 401 /\ spec_kind_of_status s = unauthorized)
  \/ (s = 403 /\ spec_kind_of_status s = forbidden)
  \/ ((s = 400 \/ s = 422) /\ spec_kind_of_status s = validation)
  \/ ((s <> 404 /\ s <> 409 /\ s <> 401 /\ s <> 403 /\ s <> 400 /\ s <> 422)
      /\ spec_kind_of_status s = generic).
Proof.
  assert (Hcases :
    s = 404 \/ s = 409 \/ s = 401 \/ s = 403 \/ s = 400 \/ s = 422 \/
    (s <> 404 /\ s <> 409 /\ s <> 401 /\ s <> 403 /\ s <> 400 /\ s <> 422)) by lia.
  destruct Hcases as [->|[->|[->|[->|[->|[->|Hs]]]]]]; auto 10.
  do 5 right. split; [exact Hs|].
  destruct Hs as (H404 & H409 & H401 & H403 & H400 & H422).
  unfold spec_kind_of_status. destruct s as [|p|p]; try reflexivity.
  repeat (destruct p as [p|p|]; try reflexivity; try contradiction).
Qed.

(** C6: the error of a non-2xx response has the kind its status code alone
    decides, with the status code inside and, for a validation error, the
    decoded field map; each kind predicate holds of the error exactly when
    the status is the one of its kind. *)
Theorem checkResponse_kind resp :
  ~ is_2xx (http.StatusCode resp) ->
  exists err e,
    checkResponse resp = Some err
    /\ apiError_of err = Some e
    /\ StatusCode e = http.StatusCode resp
    /\ kind_of err = Some (spec_kind_of_status (http.StatusCode resp))
    /\ (http.StatusCode resp = 404 -> err = NotFoundErrorPtr e)
    /\ (http.StatusCode resp = 409 -> err = ConflictErrorPtr e)
    /\ (http.StatusCode resp = 401 -> err = UnauthorizedErrorPtr e)
    /\ (http.StatusCode resp = 403 -> err = ForbiddenErrorPtr e)
    /\ (http.StatusCode resp = 400 \/ http.StatusCode resp = 422 ->
        err = ValidationErrorPtr e
                (errBody.Fields (fst (json_Unmarshal_errBody (http.Body resp)))))
    /\ (http.StatusCode resp <> 404 -> http.StatusCode resp <> 409 ->
        http.StatusCode resp <> 401 -> http.StatusCode resp <> 403 ->
        http.StatusCode resp <> 400 -> http.StatusCode resp <> 422 ->
        err = APIErrorPtr e)
    /\ (IsNotFound err = true <-> http.StatusCode resp = 404)
    /\ (IsConflict err = true <-> http.StatusCode resp = 409)
    /\ (IsUnauthorized err = true <-> http.StatusCode resp = 401)
    /\ (IsForbidden err = true <-> http.StatusCode resp = 403).
Proof.
  intros Hnot.
  destruct (checkResponse_non2xx resp Hnot)
    as (err & e & Hcheck & Hapi & Hkind & Hstatus & _ & _ & Hval).
  exists err, e. do 4 (split; [assumption|]).
  destruct (kind_of_status_cases (http.StatusCode resp))
    as [[Hs Hk]|[[Hs Hk]|[[Hs Hk]|[[Hs Hk]|[[Hs Hk]|[Hs Hk]]]]]];
    rewrite Hk in Hkind;
    try (specialize (Hval Hkind));
    destruct err; try discriminate Hkind;
    cbn in Hapi; injection Hapi as ->;
    repeat split; intros; cbn in *;
    try congruence; try lia; try reflexivity; try discriminate.
Qed.


End Classifier.

(** C6 on the 422 response of the example, run on the reference library. *)
Lemma checkResponse_kind_witness :
  ~ is_2xx (http.StatusCode resp422)
  /\ exists err,
       checkResponse (H := reference_lib) resp422 = Some err
       /\ kind_of err = Some validation
       /\ (IsNotFound err = true <-> http.StatusCode resp422 = 404).
Proof.
  assert (Hnot : ~ is_2xx (http.StatusCode resp422)) by (unfold is_2xx; cbn; lia).
  split; [exact Hnot|].
  destruct (checkResponse_kind (H := reference_lib) resp422 Hnot)
    as (err & e & Hcheck & _ & _ & Hkind & _ & _ & _ & _ & _ & _ & Hnf & _).
  exists err. split; [exact Hcheck|]. split; [exact Hkind | exact Hnf].
Defined.



(** ** The retry loop *)

Lemma requests_request r t : requests (EvRequest r :: t) = r :: requests t.
Proof. reflexivity. Qed.

Lemma requests_sleep d w t : requests (EvSleep d w :: t) = requests t.
Proof. reflexivity. Qed.

Lemma requests_app t u : requests (t ++ u) = (requests t ++ requests u)%list.
Proof. unfold requests. apply omap_app. Qed.

Section Loop.
Context `{GoLib}.
Variable c : Client.
Variable env : nat -> Attempt.
Variables method path : string.
Variable body : any_body.

Abbreviation loop := (retryLoop c env method path body).
Abbreviation request := (newRequest c method path body).

Lemma iterations_S :
  0 <= maxRetries (retry c) < max_signed ->
  iterations c = S (Z.to_nat (maxRetries (retry c))).
Proof.
  intros Hr. unfold iterations, Int64.add.
  rewrite wrap64_id by (unfold min_signed, max_signed in *; lia).
  rewrite Z2Nat.inj_add by lia. cbn. lia.
Qed.

(** An attempt answered with a status that is not retryable ends the loop
    with that response. *)
Lemma retryLoop_response n attempt br lastResp lastErr resp :
  marshaled body br ->
  NewRequest_error method (baseURL c ++ path) = None ->
  do_result (env attempt) = inl resp ->
  isRetryableStatus (http.StatusCode resp) = false ->
  loop (S n) attempt br lastResp lastErr
  = (Returns (Some resp, None), [EvRequest (request br)]).
Proof.
  intros Hm Hreq Hdo Hst. cbn [retryLoop]. unfold marshaled in Hm.
  destruct body as [|[b|e]]; try contradiction;
    try destruct (0 <? Z.of_nat attempt); subst;
    rewrite Hreq, Hdo, Hst; reflexivity.
Qed.

(** A retried attempt that is not the last one is followed by its wait and
    the next iteration. *)
Lemma retryLoop_retry n attempt br lastResp lastErr resp d :
  marshaled body br ->
  NewRequest_error method (baseURL c ++ path) = None ->
  do_result (env attempt) = inl resp ->
  isRetryableStatus (http.StatusCode resp) = true ->
  Z.of_nat attempt < maxRetries (retry c) ->
  retryDelay (retry c) (Z.of_nat attempt) (Some resp) (seed (env attempt)) = Some d ->
  wake (env attempt) = TimerFired ->
  loop (S n) attempt br lastResp lastErr
  = emit (EvRequest (request br))
      (emit (EvSleep d TimerFired) (loop n (S attempt) br (Some resp) lastErr)).
Proof.
  intros Hm Hreq Hdo Hst Hlt Hd Hw. cbn [retryLoop]. unfold marshaled in Hm.
  apply Z.ltb_lt in Hlt.
  destruct body as [|[b|e]]; try contradiction;
    try destruct (0 <? Z.of_nat attempt); subst;
    rewrite Hreq, Hdo, Hst; cbn [negb]; rewrite Hlt; unfold wait;
    rewrite Hd, Hw; reflexivity.
Qed.

(** The last attempt, when retryable, is followed by no wait. *)
Lemma retryLoop_last n attempt br lastResp lastErr resp :
  marshaled body br ->
  NewRequest_error method (baseURL c ++ path) = None ->
  do_result (env attempt) = inl resp ->
  isRetryableStatus (http.StatusCode resp) = true ->
  maxRetries (retry c) <= Z.of_nat attempt ->
  loop (S n) attempt br lastResp lastErr
  = emit (EvRequest (request br)) (loop n (S attempt) br (Some resp) lastErr).
Proof.
  intros Hm Hreq Hdo Hst Hge. cbn [retryLoop]. unfold marshaled in Hm.
  apply Z.ltb_ge in Hge.
  destruct body as [|[b|e]]; try contradiction;
    try destruct (0 <? Z.of_nat attempt); subst;
    rewrite Hreq, Hdo, Hst; cbn [negb]; rewrite Hge; reflexivity.
Qed.

(** [k] retried attempts in a row: the loop issues [k] requests, then goes
    on from attempt [attempt + k] with the last response recorded. *)
Lemma retryLoop_retries k :
  forall n attempt br lastResp lastErr,
    marshaled body br ->
    NewRequest_error method (baseURL c ++ path) = None ->
    (forall i, (attempt <= i < attempt + k)%nat -> retried c env i) ->
    Z.of_nat (attempt + k) <= maxRetries (retry c) ->
    exists evs lastResp',
      loop (k + n) attempt br lastResp lastErr
      = (fst (loop n (attempt + k) br lastResp' lastErr),
         (evs ++ snd (loop n (attempt + k) br lastResp' lastErr))%list)
      /\ length (requests evs) = k
      /\ (k = 0%nat -> lastResp' = lastResp)
      /\ (forall j resp, k = S j -> do_result (env (attempt + j)) = inl resp ->
          lastResp' = Some resp).
Proof.
  induction k as [|k IH]; intros n attempt br lastResp lastErr Hm Hreq Hall Hle.
  - exists [], lastResp. rewrite Nat.add_0_r. cbn.
    split; [now destruct (loop n attempt br lastResp lastErr)|].
    repeat split; [discriminate..].
  - destruct (Hall attempt ltac:(lia)) as (resp & d & Hdo & Hst & Hd & Hw).
    destruct (IH n (S attempt) br (Some resp) lastErr Hm Hreq) as (evs & lr & Heq & Hlen & H0 & HS).
    { intros i Hi. apply Hall. lia. }
    { lia. }
    replace (S attempt + k)%nat with (attempt + S k)%nat in * by lia.
    exists (EvRequest (request br) :: EvSleep d TimerFired :: evs), lr.
    split; [|split; [|split]].
    + change (S k + n)%nat with (S (k + n)).
      rewrite (retryLoop_retry _ _ _ _ _ resp d) by (auto; lia).
      rewrite Heq. reflexivity.
    + rewrite requests_request, requests_sleep. cbn [length]. now rewrite Hlen.
    + discriminate.
    + intros j resp' [= <-] Hdo'. destruct k as [|k'].
      * rewrite Nat.add_0_r in Hdo'. rewrite (H0 eq_refl). congruence.
      * apply (HS k' resp' eq_refl).
        now replace (S attempt + k')%nat with (attempt + S k')%nat by lia.
Qed.

Lemma isRetryableStatus_spec status :
  isRetryableStatus status = true
  <-> status = 429 \/ status = 502 \/ status = 503 \/ status = 504.
Proof.
  unfold isRetryableStatus, http.StatusTooManyRequests, http.StatusBadGateway,
    http.StatusServiceUnavailable, http.StatusGatewayTimeout.
  repeat match goal with
         | |- context [?a =? ?b] => destruct (Z.eqb_spec a b)
         end; split; intros; try lia; try discriminate; reflexivity.
Qed.

Lemma retryable_not_2xx status :
  isRetryableStatus status = true -> ~ is_2xx status.
Proof. rewrite isRetryableStatus_spec. unfold is_2xx. lia. Qed.

Lemma is_2xx_not_retryable status :
  is_2xx status -> isRetryableStatus status = false.
Proof.
  intros H2. destruct (isRetryableStatus status) eqn:Hr; [|reflexivity].
  now apply retryable_not_2xx in Hr.
Qed.

(** [doRequest] enters the loop with the marshaled body. *)
Lemma doRequest_loop :
  (exists br, marshaled body br) ->
  exists br, marshaled body br
    /\ doRequest c env method path body = loop (iterations c) 0%nat br None None.
Proof.
  intros [br Hm]. unfold doRequest, marshaled in *.
  destruct body as [|[b|e]]; try contradiction; eauto.
Qed.

(** After [k] retried attempts, attempt [k] gets a response that is not
    retryable: [doRequest] returns it, having issued [k + 1] requests. *)
Lemma doRequest_retry_then_response k resp :
  sendable c method path body ->
  Z.of_nat k <= maxRetries (retry c) < max_signed ->
  (forall i, (i < k)%nat -> retried c env i) ->
  do_result (env k) = inl resp ->
  isRetryableStatus (http.StatusCode resp) = false ->
  exists evs,
    doRequest c env method path body = (Returns (Some resp, None), evs)
    /\ length (requests evs) = S k.
Proof.
  intros [Hbody Hreq] Hk Hall Hdo Hst.
  destruct (doRequest_loop Hbody) as (br & Hm & ->).
  rewrite iterations_S by lia.
  replace (S (Z.to_nat (maxRetries (retry c))))
    with (k + S (Z.to_nat (maxRetries (retry c)) - k))%nat by lia.
  destruct (retryLoop_retries k (S (Z.to_nat (maxRetries (retry c)) - k)) 0 br None None
              Hm Hreq) as (evs & lr & Heq & Hlen & _).
  { intros i Hi. apply Hall. lia. }
  { cbn. lia. }
  cbn [Nat.add] in Heq. rewrite Heq.
  rewrite (retryLoop_response _ _ _ _ _ resp) by assumption. cbn [fst snd].
  eexists. split; [reflexivity|].
  rewrite requests_app, length_app, Hlen. cbn. lia.
Qed.

(** Every attempt gets a retryable response: [doRequest] issues
    [maxRetries + 1] requests and returns the error built from the last
    response. *)
Lemma doRequest_exhausted resp :
  sendable c method path body ->
  0 <= maxRetries (retry c) < max_signed ->
  (forall i, (i < Z.to_nat (maxRetries (retry c)))%nat -> retried c env i) ->
  do_result (env (Z.to_nat (maxRetries (retry c)))) = inl resp ->
  isRetryableStatus (http.StatusCode resp) = true ->
  exists evs,
    doRequest c env method path body
    = (Returns (None, Some (APIErrorPtr
         {| StatusCode := http.StatusCode resp;
            Message := "request failed after " ++ pretty (maxRetries (retry c))
                       ++ " retries with status " ++ pretty (http.StatusCode resp);
            RequestID := EmptyString |})), evs)
    /\ length (requests evs) = S (Z.to_nat (maxRetries (retry c))).
Proof.
  intros [Hbody Hreq] Hk Hall Hdo Hst.
  destruct (doRequest_loop Hbody) as (br & Hm & ->).
  rewrite iterations_S by lia.
  set (k := Z.to_nat (maxRetries (retry c))) in *.
  replace (S k) with (k + 1)%nat by lia.
  destruct (retryLoop_retries k 1 0 br None None Hm Hreq) as (evs & lr & Heq & Hlen & _).
  { intros i Hi. apply Hall. lia. }
  { cbn. lia. }
  cbn [Nat.add] in Heq. rewrite Heq.
  rewrite (retryLoop_last _ _ _ _ _ resp) by (auto; lia).
  cbn [retryLoop emit ret fst snd exhausted].
  eexists. split; [reflexivity|].
  rewrite requests_app, length_app, Hlen. cbn. lia.
Qed.

(** [doJSON] on the response [doRequest] returns. *)
Lemma doJSON_response {T} (result : option (string -> T + string)) resp evs :
  doRequest c env method path body = (Returns (Some resp, None), evs) ->
  doJSON c env method path body result
  = (match checkResponse resp with
     | Some err => Returns (None, Some err)
     | None =>
         match result with
         | None => Returns (None, None)
         | Some decode =>
             match http.BodyErr resp with
             | Some e => Returns (None, Some (Errorf "reading response body: " (ForeignError e)))
             | None =>
                 match decode (http.Body resp) with
                 | inl v => Returns (Some v, None)
                 | inr e =>
                     Returns (None, Some (Errorf
                       ("unmarshaling response (status "
                        ++ pretty (http.StatusCode resp) ++ "): ")
                       (ForeignError e)))
                 end
             end
         end
     end, evs).
Proof. intros Hr. unfold doJSON. rewrite Hr. reflexivity. Qed.

(** The payload of the response arrives: it is read without error and the
    caller's decoder accepts it. *)
Lemma doJSON_retry_then_success {T} k resp (decode : string -> T + string) v :
  sendable c method path body ->
  Z.of_nat k <= maxRetries (retry c) < max_signed ->
  (forall i, (i < k)%nat -> retried c env i) ->
  do_result (env k) = inl resp ->
  is_2xx (http.StatusCode resp) ->
  http.BodyErr resp = None ->
  decode (http.Body resp) = inl v ->
  exists evs,
    doRequest c env method path body = (Returns (Some resp, None), evs)
    /\ doJSON c env method path body (Some decode) = (Returns (Some v, None), evs)
    /\ doJSON (T := T) c env method path body None = (Returns (None, None), evs)
    /\ length (requests evs) = S k.
Proof.
  intros Hs Hk Hall Hdo H2 Hread Hdec.
  destruct (doRequest_retry_then_response k resp Hs Hk Hall Hdo
              (is_2xx_not_retryable _ H2)) as (evs & Hr & Hlen).
  exists evs. split; [exact Hr|].
  rewrite !(doJSON_response _ resp evs Hr).
  apply checkResponse_2xx in H2. rewrite H2, Hread, Hdec. auto.
Qed.

(** A wait that the context ends is the last thing the loop does: the
    loop returns the context's error, and the wait follows the request of
    some attempt [attempt + j], the last request issued. *)
Lemma retryLoop_wait_cancelled n :
  forall attempt br lastResp lastErr d err,
    In (EvSleep d (CtxDone err)) (snd (loop n attempt br lastResp lastErr)) ->
    fst (loop n attempt br lastResp lastErr) = Returns (None, Some err)
    /\ exists pre j,
         snd (loop n attempt br lastResp lastErr) = (pre ++ [EvSleep d (CtxDone err)])%list
         /\ wake (env (attempt + j)) = CtxDone err
         /\ length (requests pre) = S j.
Proof.
  induction n as [|n IH]; intros attempt br lastResp lastErr d err; cbn [retryLoop].
  - intros [].
  - unfold wait, emit, ret, panic, sleepWithContext.
    destruct (wake (env attempt)) as [|ctxErr] eqn:Hwake; cbn beta iota;
    repeat match goal with
           | |- context [match ?x with _ => _ end] => destruct x eqn:?
           end;
      cbn [fst snd In]; intros Hin;
      repeat match goal with
             | Hin : _ \/ _ |- _ => destruct Hin as [Hin | Hin]
             | Hin : False |- _ => destruct Hin
             | Hin : EvRequest _ = EvSleep _ _ |- _ => discriminate Hin
             | Hin : EvSleep _ TimerFired = EvSleep _ (CtxDone _) |- _ => discriminate Hin
             | Hin : EvSleep _ (CtxDone _) = EvSleep _ (CtxDone _) |- _ =>
                 injection Hin as -> ->
             end;
      try (apply IH in Hin as (Hfst & pre & j & Hsnd & Hw & Hlen);
           split; [exact Hfst|];
           rewrite Hsnd;
           first [ eexists (_ :: _ :: pre), (S j); split; [reflexivity|]
                 | eexists (_ :: pre), (S j); split; [reflexivity|] ];
           (split; [now replace (attempt + S j)%nat with (S attempt + j)%nat by lia|]);
           rewrite requests_request, ?requests_sleep; cbn [length]; now rewrite Hlen);
      try (split; [reflexivity|];
           eexists [_], 0%nat; split; [reflexivity|];
           split; [now rewrite Nat.add_0_r | reflexivity]).
Qed.

(** Seen from the inputs: after [k] retried attempts, the context is done
    during the wait that follows attempt [k]; the call returns the
    context's error after [k + 1] requests. *)
Lemma doRequest_cancelled_in_wait k resp d err :
  sendable c method path body ->
  Z.of_nat k < maxRetries (retry c) < max_signed ->
  (forall i, (i < k)%nat -> retried c env i) ->
  do_result (env k) = inl resp ->
  isRetryableStatus (http.StatusCode resp) = true ->
  retryDelay (retry c) (Z.of_nat k) (Some resp) (seed (env k)) = Some d ->
  wake (env k) = CtxDone err ->
  exists evs,
    doRequest c env method path body = (Returns (None, Some err), evs)
    /\ In (EvSleep d (CtxDone err)) evs
    /\ length (requests evs) = S k.
Proof.
  intros [Hbody Hreq] Hk Hall Hdo Hst Hd Hw.
  destruct (doRequest_loop Hbody) as (br & Hm & ->).
  rewrite iterations_S by lia.
  replace (S (Z.to_nat (maxRetries (retry c))))
    with (k + S (Z.to_nat (maxRetries (retry c)) - k))%nat by lia.
  destruct (retryLoop_retries k (S (Z.to_nat (maxRetries (retry c)) - k)) 0 br None None
              Hm Hreq) as (evs & lr & Heq & Hlen & _).
  { intros i Hi. apply Hall. lia. }
  { cbn. lia. }
  cbn [Nat.add] in Heq. rewrite Heq.
  assert (Hstep : loop (S (Z.to_nat (maxRetries (retry c)) - k)) k br lr None
                  = (Returns (None, Some err),
                     [EvRequest (request br); EvSleep d (CtxDone err)])).
  { cbn [retryLoop]. unfold marshaled in Hm.
    assert (Hlt : (Z.of_nat k <? maxRetries (retry c)) = true) by (apply Z.ltb_lt; lia).
    destruct body as [|[b|e]]; try contradiction;
      try destruct (0 <? Z.of_nat k); subst;
      rewrite Hreq, Hdo, Hst; cbn [negb]; rewrite Hlt; unfold wait;
      rewrite Hd, Hw; reflexivity. }
  rewrite Hstep. cbn [fst snd]. eexists. split; [reflexivity|]. split.
  - apply in_or_app. right. right. left. reflexivity.
  - rewrite requests_app, length_app, Hlen. cbn. lia.
Qed.

(** C8: when the caller's context is done during a wait between attempts,
    the call returns the context's error; that wait is the last thing the
    call does, so no attempt follows it: the requests issued are those of
    the attempts up to the one before the wait. *)
Theorem doRequest_wait_cancelled d err :
  In (EvSleep d (CtxDone err)) (snd (doRequest c env method path body)) ->
  fst (doRequest c env method path body) = Returns (None, Some err)
  /\ (forall T result,
        fst (doJSON (T := T) c env method path body result) = Returns (None, Some err))
  /\ exists pre j,
       snd (doRequest c env method path body) = (pre ++ [EvSleep d (CtxDone err)])%list
       /\ wake (env j) = CtxDone err
       /\ length (requests (snd (doRequest c env method path body))) = S j.
Proof.
  intros Hin.
  assert (Hloop : exists br, doRequest c env method path body
                             = loop (iterations c) 0%nat br None None).
  { unfold doRequest in *. destruct body as [|[b|e]]; eauto. destruct Hin. }
  destruct Hloop as [br Hrun]. rewrite Hrun in *.
  apply retryLoop_wait_cancelled in Hin as (Hfst & pre & j & Hsnd & Hw & Hlen).
  split; [exact Hfst|]. split.
  - intros T result. unfold doJSON. cbn [fst]. rewrite Hrun, Hfst. reflexivity.
  - exists pre, j. split; [exact Hsnd|]. split; [exact Hw|].
    rewrite Hsnd, requests_app, length_app, Hlen. cbn. lia.
Qed.

(** C3: a first response whose status is neither 2xx nor retryable ends
    the call after one request and no wait; [doRequest] hands the response
    back and [doJSON] returns the error [checkResponse] makes of it, whose
    kind is the one of the status. *)
Theorem doJSON_non_retryable_error resp :
  sendable c method path body ->
  0 <= maxRetries (retry c) < max_signed ->
  do_result (env 0%nat) = inl resp ->
  ~ is_2xx (http.StatusCode resp) ->
  http.StatusCode resp <> 429 -> http.StatusCode resp <> 502 ->
  http.StatusCode resp <> 503 -> http.StatusCode resp <> 504 ->
  exists err e req,
    doRequest c env method path body = (Returns (Some resp, None), [EvRequest req])
    /\ (forall T result,
          doJSON (T := T) c env method path body result
          = (Returns (None, Some err), [EvRequest req]))
    /\ checkResponse resp = Some err
    /\ kind_of err = Some (spec_kind_of_status (http.StatusCode resp))
    /\ apiError_of err = Some e
    /\ StatusCode e = http.StatusCode resp.
Proof.
  intros [Hbody Hreq] Hk Hdo Hnot H429 H502 H503 H504.
  assert (Hst : isRetryableStatus (http.StatusCode resp) = false).
  { destruct (isRetryableStatus (http.StatusCode resp)) eqn:Hr; [|reflexivity].
    apply isRetryableStatus_spec in Hr. lia. }
  destruct (checkResponse_non2xx resp Hnot)
    as (err & e & Hcheck & Hapi & Hkind & Hstatus & _).
  destruct (doRequest_loop Hbody) as (br & Hm & Hrun).
  rewrite iterations_S in Hrun by lia.
  rewrite (retryLoop_response _ _ _ _ _ resp) in Hrun by assumption.
  exists err, e, (request br). split; [exact Hrun|].
  split; [|auto].
  intros T result. rewrite (doJSON_response _ resp _ Hrun), Hcheck. reflexivity.
Qed.

(** *** The backoff of a client made by [NewClient] *)

(** Up to attempt 34 the product [baseDelay * 2^attempt] fits int64 and the
    delay is defined. *)
Lemma retryDelay_default_defined attempt resp seed :
  default_delays c -> 0 <= attempt <= 34 ->
  exists d, retryDelay (retry c) attempt resp seed = Some d.
Proof.
  intros [Hb Hm] Ha. unfold retryDelay.
  destruct (retryAfterDelay (retry c) resp) as [d|]; [eauto|].
  unfold backoffDelay, cappedDelay, pow2_Duration. rewrite Hb, Hm.
  destruct (Z.ltb_spec attempt 0); [lia|].
  destruct (Z.leb_spec attempt 62); [|lia].
  assert (Hpow : 1 <= 2 ^ attempt <= 2 ^ 34).
  { split; [apply Z.pow_le_mono_r with (b := 0); lia
           | apply Z.pow_le_mono_r; lia]. }
  change (2 ^ 34) with 17179869184 in Hpow.
  unfold Int64.mul, defaultBaseDelay, defaultMaxDelay, Millisecond, Second.
  rewrite wrap64_id by (unfold min_signed, max_signed; lia).
  set (delay := if _ <? _ then _ else _).
  assert (Hdelay : 500000000 <= delay).
  { subst delay. destruct (Z.ltb_spec (30 * 1000000000) (500 * 1000000 * 2 ^ attempt)); lia. }
  unfold Int64N, Int64.div. rewrite Z.quot_div_nonneg by lia.
  pose proof (Z.div_le_mono 500000000 delay 2 ltac:(lia) Hdelay) as Hq.
  change (500000000 / 2) with 250000000 in Hq.
  destruct (Z.leb_spec (delay / 2) 0); [lia|]. eauto.
Qed.

(** At attempt 35 the product wraps around to a negative duration, and
    [rand.Int64N] panics on the negative bound. *)
Lemma backoffDelay_default_35 seed :
  default_delays c -> backoffDelay (retry c) 35 seed = None.
Proof.
  intros [Hb Hm]. unfold backoffDelay, cappedDelay. rewrite Hb, Hm. reflexivity.
Qed.

Lemma retryLoop_panic n attempt br lastResp lastErr resp :
  marshaled body br ->
  NewRequest_error method (baseURL c ++ path) = None ->
  do_result (env attempt) = inl resp ->
  isRetryableStatus (http.StatusCode resp) = true ->
  Z.of_nat attempt < maxRetries (retry c) ->
  retryDelay (retry c) (Z.of_nat attempt) (Some resp) (seed (env attempt)) = None ->
  loop (S n) attempt br lastResp lastErr = (Panics, [EvRequest (request br)]).
Proof.
  intros Hm Hreq Hdo Hst Hlt Hd. cbn [retryLoop]. unfold marshaled in Hm.
  apply Z.ltb_lt in Hlt.
  destruct body as [|[b|e]]; try contradiction;
    try destruct (0 <? Z.of_nat attempt); subst;
    rewrite Hreq, Hdo, Hst; cbn [negb]; rewrite Hlt; unfold wait;
    rewrite Hd; reflexivity.
Qed.

(** With a budget of 36 retries or more, 36 retryable responses in a row
    make [doRequest] panic after the 36th request. *)
Lemma doRequest_panics_at_attempt_35 :
  sendable c method path body -> default_delays c ->
  36 <= maxRetries (retry c) < max_signed ->
  (forall i, (i <= 35)%nat -> backed_off c env i) ->
  exists evs,
    doRequest c env method path body = (Panics, evs)
    /\ length (requests evs) = 36%nat.
Proof.
  intros [Hbody Hreq] Hdef Hk Hall.
  destruct (doRequest_loop Hbody) as (br & Hm & ->).
  rewrite iterations_S by lia.
  replace (S (Z.to_nat (maxRetries (retry c))))
    with (35 + S (Z.to_nat (maxRetries (retry c)) - 35))%nat by lia.
  destruct (retryLoop_retries 35 (S (Z.to_nat (maxRetries (retry c)) - 35)) 0 br None None
              Hm Hreq) as (evs & lr & Heq & Hlen & _).
  { intros i Hi. destruct (Hall i ltac:(lia)) as (resp & Hdo & Hst & _ & Hw).
    destruct (retryDelay_default_defined (Z.of_nat i) (Some resp) (seed (env i)) Hdef
                ltac:(lia)) as [d Hd].
    exists resp, d. auto. }
  { cbn. lia. }
  change (0 + 35)%nat with 35%nat in Heq. rewrite Heq.
  destruct (Hall 35%nat ltac:(lia)) as (resp & Hdo & Hst & Hra & _).
  rewrite (retryLoop_panic _ _ _ _ _ resp); try assumption; try lia.
  - cbn [fst snd]. eexists. split; [reflexivity|].
    rewrite requests_app, length_app, Hlen. cbn. lia.
  - unfold retryDelay. rewrite Hra. now apply (backoffDelay_default_35 _ Hdef).
Qed.

(** X7.  With the default delays, a call that meets [k <= 35] retryable
    responses in a row, each followed by a wait that runs to its end, and
    then a response that is not retryable, returns that response after
    [k + 1] requests. *)
Lemma doRequest_default_retry_then_response k resp :
  sendable c method path body -> default_delays c ->
  (k <= 35)%nat ->
  Z.of_nat k <= maxRetries (retry c) < max_signed ->
  (forall i, (i < k)%nat ->
     exists r, do_result (env i) = inl r
       /\ isRetryableStatus (http.StatusCode r) = true
       /\ wake (env i) = TimerFired) ->
  do_result (env k) = inl resp ->
  isRetryableStatus (http.StatusCode resp) = false ->
  exists evs,
    doRequest c env method path body = (Returns (Some resp, None), evs)
    /\ length (requests evs) = S k.
Proof.
  intros Hs Hdef Hk35 Hk Hall Hdo Hst.
  apply doRequest_retry_then_response; try assumption.
  intros i Hi. destruct (Hall i Hi) as (r & Hr & Hrs & Hw).
  destruct (retryDelay_default_defined (Z.of_nat i) (Some r) (seed (env i)) Hdef
              ltac:(lia)) as [d Hd].
  exists r, d. auto.
Qed.

(** X8.  With a budget of at most 35 retries, a server that only answers with
    retryable statuses exhausts the budget. *)
Lemma doRequest_default_exhausted resp :
  sendable c method path body -> default_delays c ->
  0 <= maxRetries (retry c) <= 35 ->
  (forall i, (i < Z.to_nat (maxRetries (retry c)))%nat ->
     exists r, do_result (env i) = inl r
       /\ isRetryableStatus (http.StatusCode r) = true
       /\ wake (env i) = TimerFired) ->
  do_result (env (Z.to_nat (maxRetries (retry c)))) = inl resp ->
  isRetryableStatus (http.StatusCode resp) = true ->
  exists evs,
    doRequest c env method path body
    = (Returns (None, Some (APIErrorPtr
         {| StatusCode := http.StatusCode resp;
            Message := "request failed after " ++ pretty (maxRetries (retry c))
                       ++ " retries with status " ++ pretty (http.StatusCode resp);
            RequestID := EmptyString |})), evs)
    /\ length (requests evs) = S (Z.to_nat (maxRetries (retry c))).
Proof.
  intros Hs Hdef Hk Hall Hdo Hst.
  apply doRequest_exhausted; try assumption.
  { unfold max_signed. lia. }
  intros i Hi. destruct (Hall i Hi) as (r & Hr & Hrs & Hw).
  destruct (retryDelay_default_defined (Z.of_nat i) (Some r) (seed (env i)) Hdef
              ltac:(lia)) as [d Hd].
  exists r, d. auto.
Qed.

End Loop.

(** ** Calls on concrete servers *)

Lemma example_client_new n :
  0 < n -> NewClient (example_config n) = inl (example_client n).
Proof.
  intros Hn. unfold NewClient, example_config, example_client. cbn.
  destruct (Z.ltb_spec 0 n); [reflexivity|lia].
Qed.

(** [TestRetryOn503]: one 503, then 200, with a budget of one retry. *)
Example doRequest_503_then_200 :
  fst (doRequest (H := reference_lib) (example_client 1)
         (server 1 (response 503 EmptyString) (response 200 org_payload))
         http.MethodGet org_path body_nil)
  = Returns (Some (response 200 org_payload), None)
  /\ length (requests (snd (doRequest (H := reference_lib) (example_client 1)
         (server 1 (response 503 EmptyString) (response 200 org_payload))
         http.MethodGet org_path body_nil))) = 2%nat.
Proof. split; vm_compute; reflexivity. Qed.

(** The default budget against a server that always answers 503. *)
Example doRequest_always_503 :
  fst (doRequest (H := reference_lib) (example_client 3)
         (server 0 (response 503 EmptyString) (response 503 EmptyString))
         http.MethodGet org_path body_nil)
  = Returns (None, Some (APIErrorPtr
      {| StatusCode := 503;
         Message := "request failed after 3 retries with status 503";
         RequestID := EmptyString |}))
  /\ length (requests (snd (doRequest (H := reference_lib) (example_client 3)
         (server 0 (response 503 EmptyString) (response 503 EmptyString))
         http.MethodGet org_path body_nil))) = 4%nat.
Proof. split; vm_compute; reflexivity. Qed.

(** C2 on a budget of 36 retries and a server that answers 503 to the
    first 36 requests and 200 from the 37th on: the 37th attempt is within
    the budget, but the call panics when it computes the delay after the
    36th response, so the 37th request is never issued. *)
Theorem doRequest_success_at_attempt_37_panics :
  NewClient (example_config 36) = inl (example_client 36)
  /\ (37 <= maxRetries (retry (example_client 36)) + 1)
  /\ http.StatusCode (response 200 org_payload) = 200
  /\ fst (doRequest (H := reference_lib) (example_client 36)
            (server 36 (response 503 EmptyString) (response 200 org_payload))
            http.MethodGet org_path body_nil) = Panics
  /\ fst (doJSON (H := reference_lib) (T := unit) (example_client 36)
            (server 36 (response 503 EmptyString) (response 200 org_payload))
            http.MethodGet org_path body_nil None) = Panics
  /\ length (requests (snd (doRequest (H := reference_lib) (example_client 36)
            (server 36 (response 503 EmptyString) (response 200 org_payload))
            http.MethodGet org_path body_nil))) = 36%nat.
Proof. repeat split; vm_compute; try reflexivity; discriminate. Qed.

(** C4 on a budget of 36 retries and a server that always answers 503: the
    call panics after the 36th request instead of issuing 37 requests and
    returning the error that reports 36 retries. *)
Theorem doRequest_exhaustion_panics :
  NewClient (example_config 36) = inl (example_client 36)
  /\ fst (doRequest (H := reference_lib) (example_client 36)
            (server 0 (response 503 EmptyString) (response 503 EmptyString))
            http.MethodGet org_path body_nil) = Panics
  /\ length (requests (snd (doRequest (H := reference_lib) (example_client 36)
            (server 0 (response 503 EmptyString) (response 503 EmptyString))
            http.MethodGet org_path body_nil))) = 36%nat.
Proof. repeat split; vm_compute; reflexivity. Qed.

(** C3 on a server that answers 404. *)
Lemma doJSON_non_retryable_error_witness :
  exists err req,
    doJSON (H := reference_lib) (T := unit) (example_client 3)
      (server 0 (response 404 EmptyString) (response 404 EmptyString))
      http.MethodGet org_path body_nil None
    = (Returns (None, Some err), [EvRequest req])
    /\ kind_of err = Some not_found.
Proof.
  destruct (doJSON_non_retryable_error (H := reference_lib) (example_client 3)
              (server 0 (response 404 EmptyString) (response 404 EmptyString))
              http.MethodGet org_path body_nil (response 404 EmptyString))
    as (err & e & req & _ & Hjson & _ & Hkind & _).
  - split; [exists None; reflexivity | reflexivity].
  - cbn. unfold max_signed. lia.
  - reflexivity.
  - unfold is_2xx. cbn. lia.
  - cbn. lia.
  - cbn. lia.
  - cbn. lia.
  - cbn. lia.
  - exists err, req. split; [apply Hjson | exact Hkind].
Defined.

(** C8 on a call whose context is cancelled during the wait after a first
    503. *)
Lemma doRequest_wait_cancelled_witness :
  fst (doRequest (H := reference_lib) (example_client 3)
         (fun _ => answered_then_cancelled (response 503 EmptyString))
         http.MethodGet org_path body_nil)
  = Returns (None, Some (ForeignError "context canceled")).
Proof.
  apply (doRequest_wait_cancelled (H := reference_lib) (example_client 3)
           (fun _ => answered_then_cancelled (response 503 EmptyString))
           http.MethodGet org_path body_nil 375000000
           (ForeignError "context canceled")).
  vm_compute. right. left. reflexivity.
Defined.

(** C9 on the endpoint of the specification's example. *)
Lemma NewClient_baseURL_witness :
  exists c, NewClient (example_config 0) = inl c
    /\ baseURL c = "https://api.example.com".
Proof.
  destruct (NewClient_baseURL (H := reference_lib) (example_config 0))
    as (c & Hc & Hb & _).
  - discriminate.
  - discriminate.
  - exists c. split; [exact Hc|]. rewrite Hb. reflexivity.
Defined.

(** * Further properties *)

(** ** The error predicates *)

(** The predicates follow the kind of an error of the package. *)
Lemma kind_predicates err k :
  kind_of err = Some k ->
  (IsNotFound err = true <-> k = not_found)
  /\ (IsConflict err = true <-> k = conflict)
  /\ (IsUnauthorized err = true <-> k = unauthorized)
  /\ (IsForbidden err = true <-> k = forbidden).
Proof.
  destruct err; cbn; intros [= <-]; repeat split; intros; congruence.
Qed.

(** ** NewClient *)

(** X15.  [NewClient] fails exactly when the endpoint or the token is empty, the
    endpoint being checked first; a client it returns holds the token as
    given, and neither an empty user agent nor a zero timeout. *)
Theorem NewClient_validation cfg :
  (NewClient cfg = inr (ForeignError "endpoint is required")
   <-> Endpoint cfg = EmptyString)
  /\ (NewClient cfg = inr (ForeignError "api_token is required")
      <-> Endpoint cfg <> EmptyString /\ APIToken cfg = EmptyString)
  /\ (forall c, NewClient cfg = inl c ->
        Endpoint cfg <> EmptyString /\ APIToken cfg <> EmptyString
        /\ apiToken c = APIToken cfg
        /\ (UserAgent cfg = EmptyString -> userAgent c = defaultUserAgent)
        /\ (UserAgent cfg <> EmptyString -> userAgent c = UserAgent cfg)
        /\ userAgent c <> EmptyString
        /\ (Timeout cfg = 0 -> httpClient_Timeout c = defaultTimeout)
        /\ (Timeout cfg <> 0 -> httpClient_Timeout c = Timeout cfg)
        /\ httpClient_Timeout c <> 0).
Proof.
  unfold NewClient.
  destruct (String.eqb_spec (Endpoint cfg) EmptyString) as [He|He];
    [|destruct (String.eqb_spec (APIToken cfg) EmptyString) as [Ht|Ht]].
  - split; [tauto|]. split; [|discriminate].
    split; [discriminate | intros [Hx _]; contradiction].
  - split; [split; [discriminate|contradiction]|]. split; [tauto|discriminate].
  - split; [split; [discriminate|contradiction]|].
    split; [split; [discriminate|intros [_ Hx]; contradiction]|].
    intros c [= <-]. cbn.
    destruct (String.eqb_spec (UserAgent cfg) EmptyString) as [Hu|Hu];
      destruct (Z.eqb_spec (Timeout cfg) 0) as [Hz|Hz];
      repeat split; intros; try assumption; try contradiction; try reflexivity;
      try discriminate; try lia.
Qed.

(** ** retryDelay *)

Section RetryDelayMore.
Context `{GoLib}.

(** X11.  On a 429 response whose Retry-After value is a positive integer, the
    delay is the same for every attempt number and every state of the
    random source (no backoff, no jitter) and never exceeds the maximum
    delay, whatever the integer. *)
Theorem retryDelay_RetryAfter_capped cfg r N :
  http.StatusCode r = 429 ->
  Atoi (http.Get (http.Header_ r) "Retry-After") = Some N ->
  0 < N ->
  exists d,
    d <= maxDelay cfg
    /\ forall attempt seed, retryDelay cfg attempt (Some r) seed = Some d.
Proof.
  intros Hs Ha Hpos.
  assert (Hra : exists d, retryAfterDelay cfg (Some r) = Some d).
  { unfold retryAfterDelay. change http.StatusTooManyRequests with 429.
    rewrite Hs, Z.eqb_refl.
    destruct (String.eqb_spec (http.Get (http.Header_ r) "Retry-After") EmptyString) as [He|_].
    { rewrite He in Ha. discriminate. }
    rewrite Ha. destruct (Z.ltb_spec 0 N); [eauto|lia]. }
  destruct Hra as [d Hd]. exists d. split.
  - now apply retryAfterDelay_le in Hd.
  - intros attempt seed. unfold retryDelay. now rewrite Hd.
Qed.

(** X12.  The Retry-After header is honoured only on a 429 response and only when
    its value is a positive integer: on any other response, or without a
    response, the delay is the backoff. *)
Theorem retryAfterDelay_None cfg resp :
  (retryAfterDelay cfg resp = None
   <-> match resp with
       | None => True
       | Some r =>
           http.StatusCode r <> 429
           \/ (forall N, Atoi (http.Get (http.Header_ r) "Retry-After") = Some N -> N <= 0)
       end)
  /\ (retryAfterDelay cfg resp = None ->
      forall attempt seed,
        retryDelay cfg attempt resp seed = backoffDelay cfg attempt seed).
Proof.
  split; [|intros Hn attempt seed; now apply retryDelay_backoff].
  unfold retryAfterDelay. destruct resp as [r|]; [|tauto].
  change http.StatusTooManyRequests with 429.
  destruct (Z.eqb_spec (http.StatusCode r) 429) as [Hs|Hs]; [|tauto].
  destruct (String.eqb_spec (http.Get (http.Header_ r) "Retry-After") EmptyString) as [He|He].
  { rewrite He. split; [|reflexivity]. intros _. right. intros N HN. discriminate. }
  destruct (Atoi (http.Get (http.Header_ r) "Retry-After")) as [N|].
  - destruct (Z.ltb_spec 0 N).
    + split; [discriminate|]. intros [Hne | Hall]; [contradiction|].
      specialize (Hall N eq_refl). lia.
    + split; [|reflexivity]. intros _. right. intros N' [= <-]. assumption.
  - split; [|reflexivity]. intros _. right. intros N HN. discriminate.
Qed.

(** X13.  With the default delays and up to attempt 34, the backoff delay is
    defined and lies between three quarters (included) and five quarters
    (excluded) of the capped delay min(500ms * 2^attempt, 30s). *)
Theorem retryDelay_default_range cfg attempt resp seed :
  baseDelay cfg = defaultBaseDelay -> maxDelay cfg = defaultMaxDelay ->
  0 <= attempt <= 34 ->
  retryAfterDelay cfg resp = None ->
  exists d,
    retryDelay cfg attempt resp seed = Some d
    /\ 3 * Z.min (500 * Millisecond * 2 ^ attempt) (30 * Second) <= 4 * d
    /\ 4 * d < 5 * Z.min (500 * Millisecond * 2 ^ attempt) (30 * Second).
Proof.
  intros Hb Hm Ha Hn. rewrite retryDelay_backoff by assumption.
  unfold backoffDelay, cappedDelay, pow2_Duration. rewrite Hb, Hm.
  destruct (Z.ltb_spec attempt 0); [lia|].
  destruct (Z.leb_spec attempt 62); [|lia].
  assert (Hpow : 1 <= 2 ^ attempt <= 2 ^ 34).
  { split; [apply Z.pow_le_mono_r with (b := 0); lia
           | apply Z.pow_le_mono_r; lia]. }
  change (2 ^ 34) with 17179869184 in Hpow.
  unfold Int64.mul, Int64.add, Int64.div, defaultBaseDelay, defaultMaxDelay,
    Millisecond, Second.
  rewrite wrap64_id by (unfold min_signed, max_signed; lia).
  set (p := 2 ^ attempt) in *.
  assert (Hcap : exists q, 125000000 <= q <= 7500000000
                 /\ (if 30 * 1000000000 <? 500 * 1000000 * p
                     then 30 * 1000000000 else 500 * 1000000 * p) = 4 * q
                 /\ Z.min (500 * 1000000 * p) (30 * 1000000000) = 4 * q).
  { destruct (Z.ltb_spec (30 * 1000000000) (500 * 1000000 * p)).
    - exists 7500000000. lia.
    - exists (125000000 * p). lia. }
  destruct Hcap as (q & Hq & -> & ->).
  replace (Z.quot (4 * q) 2) with (2 * q)
    by (rewrite Z.quot_div_nonneg by lia; apply Z.div_unique_exact; lia).
  replace (Z.quot (4 * q) 4) with q
    by (rewrite Z.quot_div_nonneg by lia; apply Z.div_unique_exact; lia).
  unfold Int64N. destruct (Z.leb_spec (2 * q) 0); [lia|].
  pose proof (Z.mod_pos_bound seed (2 * q) ltac:(lia)) as Hj.
  eexists. split; [reflexivity|].
  rewrite (wrap64_id (2 * q + q)) by (unfold min_signed, max_signed; lia).
  rewrite wrap64_id by (unfold min_signed, max_signed; lia).
  lia.
Qed.

End RetryDelayMore.

(** ** The retry loop, whatever the server does *)

Lemma requests_nil : requests [] = [].
Proof. reflexivity. Qed.

Lemma sleeps_nil : sleeps [] = [].
Proof. reflexivity. Qed.

Lemma sleeps_request r t : sleeps (EvRequest r :: t) = sleeps t.
Proof. reflexivity. Qed.

Lemma sleeps_sleep d w t : sleeps (EvSleep d w :: t) = d :: sleeps t.
Proof. reflexivity. Qed.

Lemma sleeps_app t u : sleeps (t ++ u) = (sleeps t ++ sleeps u)%list.
Proof. unfold sleeps. apply omap_app. Qed.

Section LoopInvariants.
Context `{GoLib}.
Variable c : Client.
Variable env : nat -> Attempt.
Variables method path : string.
Variable body : any_body.

Abbreviation loop' := (retryLoop c env method path body).

Ltac loop_cases :=
  unfold wait, emit, ret, panic, sleepWithContext;
  repeat match goal with
         | |- context [match ?x with _ => _ end] => destruct x eqn:?
         end;
  cbn [fst snd].

Ltac ltb_facts :=
  repeat match goal with
         | Hb : (_ <? _) = true |- _ => apply Z.ltb_lt in Hb
         | Hb : (_ <? _) = false |- _ => apply Z.ltb_ge in Hb
         end.

(** The loop with [n] iterations left issues at most [n] requests; it
    waits only while the attempt number is below the budget, and never
    more often than it sends. *)
Lemma retryLoop_counts n :
  forall attempt br lastResp lastErr,
    let t := snd (loop' n attempt br lastResp lastErr) in
    (length (requests t) <= n)%nat
    /\ Z.of_nat (length (sleeps t)) <= Z.max 0 (maxRetries (retry c) - Z.of_nat attempt)
    /\ (length (sleeps t) <= length (requests t))%nat.
Proof.
  induction n as [|n IH]; intros attempt br lastResp lastErr; cbn zeta; cbn [retryLoop].
  - cbn. lia.
  - destruct (wake (env attempt)) eqn:Hwake; loop_cases;
      rewrite ?requests_request, ?requests_sleep, ?sleeps_request, ?sleeps_sleep;
      try match goal with
          | |- context [retryLoop c env method path body n (S attempt) ?a ?b ?d] =>
              destruct (IH (S attempt) a b d) as (? & ? & ?)
          end;
      ltb_facts; rewrite ?requests_nil, ?sleeps_nil; cbn [length]; repeat split; lia.
Qed.

(** X1.  Whatever the server, the network and the context do, a call issues at
    most [maxRetries + 1] requests and waits at most [maxRetries] times,
    never more often than it sends. *)
Theorem doRequest_bounds :
  0 <= maxRetries (retry c) < max_signed ->
  let t := snd (doRequest c env method path body) in
  Z.of_nat (length (requests t)) <= maxRetries (retry c) + 1
  /\ Z.of_nat (length (sleeps t)) <= maxRetries (retry c)
  /\ (length (sleeps t) <= length (requests t))%nat.
Proof.
  intros Hk. cbn zeta. unfold doRequest.
  destruct (match body with
            | body_nil => inl None
            | body_value (inl jsonBytes) => inl (Some jsonBytes)
            | body_value (inr e) => inr e
            end) as [br|e].
  - destruct (retryLoop_counts (iterations c) 0 br None None) as (Hr & Hs & Hrs).
    pose proof (iterations_S c Hk) as Hit.
    change (Z.of_nat 0) with 0 in Hs. repeat split; lia.
  - cbn [snd ret]. rewrite requests_nil, sleeps_nil. cbn [length]. lia.
Qed.

(** A response the loop returns comes without an error, has a status that
    is not retryable and is the answer to the last request issued. *)
Lemma retryLoop_returns_response n :
  forall attempt br lastResp lastErr resp e,
    fst (loop' n attempt br lastResp lastErr) = Returns (Some resp, e) ->
    e = None
    /\ isRetryableStatus (http.StatusCode resp) = false
    /\ exists j,
         do_result (env (attempt + j)) = inl resp
         /\ length (requests (snd (loop' n attempt br lastResp lastErr))) = S j.
Proof.
  induction n as [|n IH]; intros attempt br lastResp lastErr resp e; cbn [retryLoop].
  - unfold ret, exhausted. destruct lastResp; cbn; discriminate.
  - destruct (wake (env attempt)) eqn:Hwake; loop_cases; intros Hret;
      try discriminate Hret;
      try (apply IH in Hret as (He & Hst & j & Hdo & Hlen);
           split; [exact He|]; split; [exact Hst|];
           exists (S j); rewrite requests_request, ?requests_sleep;
           split; [now replace (attempt + S j)%nat with (S attempt + j)%nat by lia
                  | cbn [length]; now rewrite Hlen]);
      try (injection Hret as <- <-;
           split; [reflexivity|]; split; [now apply negb_true_iff|];
           exists 0%nat; rewrite Nat.add_0_r; split; [assumption|reflexivity]).
Qed.

(** The loop returns neither a response nor an error only when it does not
    run at all. *)
Lemma retryLoop_returns_something n :
  forall attempt br lastResp lastErr,
    fst (loop' n attempt br lastResp lastErr) = Returns (None, None) ->
    n = 0%nat /\ lastResp = None /\ lastErr = None.
Proof.
  induction n as [|n IH]; intros attempt br lastResp lastErr; cbn [retryLoop].
  - unfold ret, exhausted. destruct lastResp; cbn; [discriminate|].
    now intros [= ->].
  - destruct (wake (env attempt)) eqn:Hwake; loop_cases; intros Hret;
      try discriminate Hret;
      apply IH in Hret as (_ & Hr & He); discriminate.
Qed.

(** X2.  [doRequest] returns a response or an error, never both; a response it
    returns has a status that is not retryable and answers the last request
    of the call; with a budget in range it never returns neither. *)
Theorem doRequest_result r e :
  fst (doRequest c env method path body) = Returns (r, e) ->
  (forall resp, r = Some resp ->
     e = None
     /\ isRetryableStatus (http.StatusCode resp) = false
     /\ exists j, do_result (env j) = inl resp
          /\ length (requests (snd (doRequest c env method path body))) = S j)
  /\ (0 <= maxRetries (retry c) < max_signed -> r = None -> e <> None).
Proof.
  unfold doRequest.
  destruct (match body with
            | body_nil => inl None
            | body_value (inl jsonBytes) => inl (Some jsonBytes)
            | body_value (inr e) => inr e
            end) as [br|err].
  - intros Hret. split.
    + intros resp ->. now apply retryLoop_returns_response in Hret.
    + intros Hk -> ->. apply retryLoop_returns_something in Hret as (Hn & _).
      rewrite iterations_S in Hn by assumption. discriminate.
  - cbn. intros [= <- <-]. split; [discriminate|]. intros _ _. discriminate.
Qed.

(** Every wait of the loop lasts what [retryDelay] computes for an attempt
    below the budget. *)
Lemma retryLoop_sleep_delay n :
  forall attempt br lastResp lastErr d,
    In d (sleeps (snd (loop' n attempt br lastResp lastErr))) ->
    exists a resp seed, retryDelay (retry c) a resp seed = Some d.
Proof.
  induction n as [|n IH]; intros attempt br lastResp lastErr d; cbn [retryLoop].
  - intros [].
  - destruct (wake (env attempt)) eqn:Hwake; loop_cases;
      rewrite ?sleeps_request, ?sleeps_sleep, ?sleeps_nil; cbn [In]; intros Hin;
      repeat match goal with
             | Hin : _ \/ _ |- _ => destruct Hin as [<- | Hin]
             | Hin : False |- _ => destruct Hin
             end;
      eauto.
Qed.

Lemma retryDelay_lt cfg attempt resp seed d :
  0 < maxDelay cfg ->
  retryDelay cfg attempt resp seed = Some d ->
  4 * d < 5 * maxDelay cfg.
Proof.
  intros Hmax. unfold retryDelay.
  destruct (retryAfterDelay cfg resp) as [d'|] eqn:Hra.
  - intros [= <-]. apply retryAfterDelay_le in Hra. lia.
  - intros Hd. apply backoffDelay_Some in Hd. cbv zeta in Hd. destruct Hd as [H2 ->].
    pose proof (cappedDelay_le cfg attempt) as Hcap.
    set (delay := cappedDelay cfg attempt) in *.
    pose proof (Z.mod_pos_bound seed (delay / 2) ltac:(apply Z.div_str_pos; lia)) as Hj.
    pose proof (wrap64_range (delay / 2 + delay / 4)) as Hr.
    pose proof (Z.div_pos delay 2 ltac:(lia) ltac:(lia)).
    pose proof (Z.div_pos delay 4 ltac:(lia) ltac:(lia)).
    pose proof (wrap64_le (delay / 2 + delay / 4) ltac:(unfold min_signed; lia)) as Hw1.
    pose proof (wrap64_le (wrap64 (delay / 2 + delay / 4) + seed mod (delay / 2))
                  ltac:(lia)) as Hw2.
    pose proof (Z.mul_div_le delay 2 ltac:(lia)).
    pose proof (Z.mul_div_le delay 4 ltac:(lia)).
    lia.
Qed.

Lemma total_bound (l : list Z) (b : Z) :
  0 <= b -> Forall (fun d => 4 * d < b) l -> 4 * total l <= b * Z.of_nat (length l).
Proof.
  intros Hb Hall. induction Hall as [|d l Hd Hall IH]; cbn [total foldr length].
  - lia.
  - fold (total l). lia.
Qed.

(** X3.  With a positive maximum delay, every wait of a call is shorter than
    five quarters of the maximum delay, and all the waits of a call
    together last at most [maxRetries] times that. *)
Theorem doRequest_wait_bound :
  0 < maxDelay (retry c) ->
  0 <= maxRetries (retry c) < max_signed ->
  Forall (fun d => 4 * d < 5 * maxDelay (retry c))
    (sleeps (snd (doRequest c env method path body)))
  /\ 4 * total (sleeps (snd (doRequest c env method path body)))
     <= 5 * maxDelay (retry c) * maxRetries (retry c).
Proof.
  intros Hmax Hk.
  assert (Hall : Forall (fun d => 4 * d < 5 * maxDelay (retry c))
                   (sleeps (snd (doRequest c env method path body)))).
  { apply Forall_forall. intros d Hin. apply list_elem_of_In in Hin.
    unfold doRequest in Hin.
    destruct (match body with
              | body_nil => inl None
              | body_value (inl jsonBytes) => inl (Some jsonBytes)
              | body_value (inr e) => inr e
              end) as [br|err]; [|destruct Hin].
    apply retryLoop_sleep_delay in Hin as (a & resp & sd & Hd).
    now apply retryDelay_lt in Hd. }
  split; [exact Hall|].
  pose proof (total_bound _ (5 * maxDelay (retry c)) ltac:(lia) Hall) as Ht.
  assert (Hs : Z.of_nat (length (sleeps (snd (doRequest c env method path body))))
               <= maxRetries (retry c)).
  { unfold doRequest.
    destruct (match body with
              | body_nil => inl None
              | body_value (inl jsonBytes) => inl (Some jsonBytes)
              | body_value (inr e) => inr e
              end) as [br|err].
    - destruct (retryLoop_counts (iterations c) 0 br None None) as (_ & Hc & _).
      change (Z.of_nat 0) with 0 in Hc. lia.
    - cbn [snd ret]. rewrite sleeps_nil. cbn [length]. lia. }
  nia.
Qed.

End LoopInvariants.

(** ** The requests of a call *)

Lemma Get_Set_eq (h : http.Header) k v : http.Get (http.Set_ h k v) k = v.
Proof. unfold http.Get, http.Set_. now rewrite lookup_insert_eq. Qed.

Lemma Get_Set_ne (h : http.Header) k k' v :
  http.CanonicalHeaderKey k <> http.CanonicalHeaderKey k' ->
  http.Get (http.Set_ h k v) k' = http.Get h k'.
Proof. intros Hne. unfold http.Get, http.Set_. now rewrite lookup_insert_ne. Qed.

Lemma Get_empty k : http.Get ∅ k = EmptyString.
Proof. unfold http.Get. now rewrite lookup_empty. Qed.

Section Requests.
Context `{GoLib}.
Variable c : Client.
Variable env : nat -> Attempt.
Variables method path : string.
Variable body : any_body.

(** Every request of the loop is built from the same marshaled body. *)
Lemma retryLoop_requests_eq n :
  forall attempt br lastResp lastErr req,
    marshaled body br ->
    In req (requests (snd (retryLoop c env method path body n attempt br lastResp lastErr))) ->
    req = newRequest c method path body br.
Proof.
  induction n as [|n IH]; intros attempt br lastResp lastErr req Hm; cbn [retryLoop].
  - intros [].
  - assert (Hre : match body with
                  | body_nil => inl br
                  | body_value m =>
                      if 0 <? Z.of_nat attempt
                      then match m with
                           | inl jsonBytes => inl (Some jsonBytes)
                           | inr e => inr e
                           end
                      else inl br
                  end = (inl br : option string + string)).
    { unfold marshaled in Hm. destruct body as [|[b|e]]; try contradiction;
        try destruct (0 <? Z.of_nat attempt); subst; reflexivity. }
    rewrite Hre. unfold wait, emit, ret, panic.
    repeat match goal with
           | |- context [match ?x with _ => _ end] => destruct x eqn:?
           end;
      cbn [fst snd]; rewrite ?requests_request, ?requests_sleep, ?requests_nil;
      cbn [In]; intros Hin;
      repeat match goal with
             | Hin : _ \/ _ |- _ => destruct Hin as [<- | Hin]
             | Hin : False |- _ => destruct Hin
             end;
      try reflexivity;
      apply IH in Hin; assumption.
Qed.

(** X4.  All the requests of a call are the same request: the method and the
    URL of the call, the bearer token, the user agent and the Accept header
    of the client, and, when the call has a body, its JSON bytes with the
    JSON content type; a call without a body sends no Content-Type. *)
Theorem doRequest_request_headers req :
  In req (requests (snd (doRequest c env method path body))) ->
  http.Method req = method
  /\ http.URL req = baseURL c ++ path
  /\ http.Get (http.ReqHeader req) "Authorization" = "Bearer " ++ apiToken c
  /\ http.Get (http.ReqHeader req) "User-Agent" = userAgent c
  /\ http.Get (http.ReqHeader req) "Accept" = "application/json"
  /\ match body with
     | body_nil =>
         http.ReqBody req = None
         /\ http.Get (http.ReqHeader req) "Content-Type" = EmptyString
     | body_value m =>
         exists jsonBytes,
           m = inl jsonBytes
           /\ http.ReqBody req = Some jsonBytes
           /\ http.Get (http.ReqHeader req) "Content-Type" = "application/json"
     end.
Proof.
  intros Hin.
  assert (Hbr : exists br, marshaled body br).
  { unfold marshaled. revert Hin. unfold doRequest.
    destruct body as [|[b|e]]; intros Hin; eauto. destruct Hin. }
  destruct (doRequest_loop c env method path body Hbr) as (br & Hm & Hrun).
  rewrite Hrun in Hin. apply retryLoop_requests_eq in Hin; [|exact Hm].
  subst req. unfold newRequest.
  cbn [http.Method http.URL http.ReqHeader http.ReqBody].
  unfold marshaled in Hm.
  destruct body as [|[b|e]]; try contradiction; subst br;
    repeat split; try (exists b; repeat split);
    repeat first [ rewrite Get_Set_eq
                 | rewrite Get_Set_ne by (vm_compute; discriminate)
                 | rewrite Get_empty ];
    reflexivity.
Qed.

(** X5.  A call whose body does not marshal, or whose method and URL make no
    request, issues no request and waits for nothing; the error names the
    step that failed. *)
Theorem doRequest_not_sent :
  (forall e, body = body_value (inr e) ->
     doRequest c env method path body
     = (Returns (None, Some (Errorf "marshaling request body: " (ForeignError e))), []))
  /\ (forall e br, marshaled body br ->
        NewRequest_error method (baseURL c ++ path) = Some e ->
        0 <= maxRetries (retry c) < max_signed ->
        doRequest c env method path body
        = (Returns (None, Some (Errorf "creating request: " (ForeignError e))), [])).
Proof.
  split.
  - intros e ->. reflexivity.
  - intros e br Hm Hreq Hk. unfold doRequest, marshaled in *.
    rewrite iterations_S by assumption. cbn [retryLoop].
    destruct body as [|[b|e']]; try contradiction; subst; cbn; rewrite Hreq; reflexivity.
Qed.

End Requests.

(** ** Transport errors *)

Section Transport.
Context `{GoLib}.
Variable c : Client.
Variable env : nat -> Attempt.
Variables method path : string.
Variable body : any_body.

Abbreviation loop'' := (retryLoop c env method path body).
Abbreviation request'' := (newRequest c method path body).

(** A transport error with a live context and budget left is followed by
    the wait and the next iteration. *)
Lemma retryLoop_retry_net n attempt br lastResp lastErr err d :
  marshaled body br ->
  NewRequest_error method (baseURL c ++ path) = None ->
  do_result (env attempt) = inr err ->
  ctx_err (env attempt) = None ->
  Z.of_nat attempt < maxRetries (retry c) ->
  retryDelay (retry c) (Z.of_nat attempt) None (seed (env attempt)) = Some d ->
  wake (env attempt) = TimerFired ->
  loop'' (S n) attempt br lastResp lastErr
  = emit (EvRequest (request'' br))
      (emit (EvSleep d TimerFired)
         (loop'' n (S attempt) br lastResp (Some (Errorf "executing request: " err)))).
Proof.
  intros Hm Hreq Hdo Hctx Hlt Hd Hw. cbn [retryLoop]. unfold marshaled in Hm.
  apply Z.ltb_lt in Hlt.
  destruct body as [|[b|e]]; try contradiction;
    try destruct (0 <? Z.of_nat attempt); subst;
    rewrite Hreq, Hdo, Hctx, Hlt; unfold wait;
    rewrite Hd, Hw; reflexivity.
Qed.

(** A transport error is returned, wrapped, when the context is done or
    the budget is used up. *)
Lemma retryLoop_net_final n attempt br lastResp lastErr err :
  marshaled body br ->
  NewRequest_error method (baseURL c ++ path) = None ->
  do_result (env attempt) = inr err ->
  ctx_err (env attempt) <> None \/ maxRetries (retry c) <= Z.of_nat attempt ->
  loop'' (S n) attempt br lastResp lastErr
  = (Returns (None, Some (Errorf "executing request: " err)), [EvRequest (request'' br)]).
Proof.
  intros Hm Hreq Hdo Hend. cbn [retryLoop]. unfold marshaled in Hm.
  assert (Hcase : match ctx_err (env attempt) with
                  | Some _ => True
                  | None => (Z.of_nat attempt <? maxRetries (retry c)) = false
                  end).
  { destruct (ctx_err (env attempt)); [exact I|].
    destruct Hend as [Hx|Hx]; [contradiction|]. now apply Z.ltb_ge. }
  destruct body as [|[b|e]]; try contradiction;
    try destruct (0 <? Z.of_nat attempt); subst;
    rewrite Hreq, Hdo; destruct (ctx_err (env attempt));
    try rewrite Hcase; reflexivity.
Qed.

(** [k] attempts in a row that are retried, after a retryable response or
    after a transport error: [k] requests and [k] waits, then the loop goes
    on from attempt [attempt + k]. *)
Lemma retryLoop_skip k :
  forall n attempt br lastResp lastErr,
    marshaled body br ->
    NewRequest_error method (baseURL c ++ path) = None ->
    (forall i, (attempt <= i < attempt + k)%nat ->
       retried c env i \/ net_retried c env i) ->
    Z.of_nat (attempt + k) <= maxRetries (retry c) ->
    exists evs lastResp' lastErr',
      loop'' (k + n) attempt br lastResp lastErr
      = (fst (loop'' n (attempt + k) br lastResp' lastErr'),
         (evs ++ snd (loop'' n (attempt + k) br lastResp' lastErr'))%list)
      /\ length (requests evs) = k
      /\ length (sleeps evs) = k.
Proof.
  induction k as [|k IH]; intros n attempt br lastResp lastErr Hm Hreq Hall Hle.
  - exists [], lastResp, lastErr. rewrite Nat.add_0_r. cbn [Nat.add app].
    split; [now destruct (loop'' n attempt br lastResp lastErr)|]. split; reflexivity.
  - change (S k + n)%nat with (S (k + n)).
    destruct (Hall attempt ltac:(lia))
      as [(resp & d & Hdo & Hst & Hd & Hw) | (err & d & Hdo & Hctx & Hd & Hw)].
    + destruct (IH n (S attempt) br (Some resp) lastErr Hm Hreq) as (evs & lr & le & Heq & Hr & Hs).
      { intros i Hi. apply Hall. lia. }
      { lia. }
      replace (S attempt + k)%nat with (attempt + S k)%nat in * by lia.
      exists (EvRequest (request'' br) :: EvSleep d TimerFired :: evs), lr, le.
      rewrite (retryLoop_retry c env method path body _ _ _ _ _ resp d) by (auto; lia).
      rewrite Heq. split; [reflexivity|].
      rewrite requests_request, requests_sleep, sleeps_request, sleeps_sleep.
      cbn [length]. now rewrite Hr, Hs.
    + destruct (IH n (S attempt) br lastResp (Some (Errorf "executing request: " err))
                  Hm Hreq) as (evs & lr & le & Heq & Hr & Hs).
      { intros i Hi. apply Hall. lia. }
      { lia. }
      replace (S attempt + k)%nat with (attempt + S k)%nat in * by lia.
      exists (EvRequest (request'' br) :: EvSleep d TimerFired :: evs), lr, le.
      rewrite (retryLoop_retry_net _ _ _ _ _ err d) by (auto; lia).
      rewrite Heq. split; [reflexivity|].
      rewrite requests_request, requests_sleep, sleeps_request, sleeps_sleep.
      cbn [length]. now rewrite Hr, Hs.
Qed.

(** After [k] attempts retried for a retryable status or a transport
    error, a response whose status is not retryable is returned: [k + 1]
    requests and [k] waits. *)
Lemma doRequest_retries_then_response k resp :
  sendable c method path body ->
  Z.of_nat k <= maxRetries (retry c) < max_signed ->
  (forall i, (i < k)%nat -> retried c env i \/ net_retried c env i) ->
  do_result (env k) = inl resp ->
  isRetryableStatus (http.StatusCode resp) = false ->
  exists evs,
    doRequest c env method path body = (Returns (Some resp, None), evs)
    /\ length (requests evs) = S k
    /\ length (sleeps evs) = k.
Proof.
  intros [Hbody Hreq] Hk Hall Hdo Hst.
  destruct (doRequest_loop c env method path body Hbody) as (br & Hm & ->).
  rewrite iterations_S by lia.
  replace (S (Z.to_nat (maxRetries (retry c))))
    with (k + S (Z.to_nat (maxRetries (retry c)) - k))%nat by lia.
  destruct (retryLoop_skip k (S (Z.to_nat (maxRetries (retry c)) - k)) 0 br None None
              Hm Hreq) as (evs & lr & le & Heq & Hr & Hs).
  { intros i Hi. apply Hall. lia. }
  { cbn. lia. }
  cbn [Nat.add] in Heq. rewrite Heq.
  rewrite (retryLoop_response c env method path body _ _ _ _ _ resp) by assumption.
  cbn [fst snd]. eexists. split; [reflexivity|].
  rewrite requests_app, sleeps_app, !length_app, Hr, Hs. cbn. lia.
Qed.

(** X6.  After [k] retried attempts, a transport error ends the call when the
    context is done or when it is the error of the last attempt of the
    budget: the call returns that error, wrapped, after [k + 1] requests
    and [k] waits. *)
Theorem doRequest_transport_error k err :
  sendable c method path body ->
  Z.of_nat k <= maxRetries (retry c) < max_signed ->
  (forall i, (i < k)%nat -> retried c env i \/ net_retried c env i) ->
  do_result (env k) = inr err ->
  ctx_err (env k) <> None \/ Z.of_nat k = maxRetries (retry c) ->
  exists evs,
    doRequest c env method path body
    = (Returns (None, Some (Errorf "executing request: " err)), evs)
    /\ length (requests evs) = S k
    /\ length (sleeps evs) = k.
Proof.
  intros [Hbody Hreq] Hk Hall Hdo Hend.
  destruct (doRequest_loop c env method path body Hbody) as (br & Hm & ->).
  rewrite iterations_S by lia.
  replace (S (Z.to_nat (maxRetries (retry c))))
    with (k + S (Z.to_nat (maxRetries (retry c)) - k))%nat by lia.
  destruct (retryLoop_skip k (S (Z.to_nat (maxRetries (retry c)) - k)) 0 br None None
              Hm Hreq) as (evs & lr & le & Heq & Hr & Hs).
  { intros i Hi. apply Hall. lia. }
  { cbn. lia. }
  cbn [Nat.add] in Heq. rewrite Heq.
  rewrite (retryLoop_net_final _ _ _ _ _ err Hm Hreq Hdo)
    by (destruct Hend as [Hx|Hx]; [left; exact Hx | right; lia]).
  cbn [fst snd]. eexists. split; [reflexivity|].
  rewrite requests_app, sleeps_app, !length_app, Hr, Hs. cbn. lia.
Qed.

(** A transport error with a live context and budget left, where
    [retryDelay] panics. *)
Lemma retryLoop_panic_net n attempt br lastResp lastErr err :
  marshaled body br ->
  NewRequest_error method (baseURL c ++ path) = None ->
  do_result (env attempt) = inr err ->
  ctx_err (env attempt) = None ->
  Z.of_nat attempt < maxRetries (retry c) ->
  retryDelay (retry c) (Z.of_nat attempt) None (seed (env attempt)) = None ->
  loop'' (S n) attempt br lastResp lastErr = (Panics, [EvRequest (request'' br)]).
Proof.
  intros Hm Hreq Hdo Hctx Hlt Hd. cbn [retryLoop]. unfold marshaled in Hm.
  apply Z.ltb_lt in Hlt.
  destruct body as [|[b|e]]; try contradiction;
    try destruct (0 <? Z.of_nat attempt); subst;
    rewrite Hreq, Hdo, Hctx, Hlt; unfold wait;
    rewrite Hd; reflexivity.
Qed.

(** X9.  With the default delays and a budget of 36 retries or more, a call
    panics after its 36th request when the first 35 attempts are retried
    (each gets a retryable response, with or without Retry-After, or fails
    in the transport while the context is live, and the wait after it runs
    to its end) and the 36th attempt calls for a backoff (it gets a
    retryable response without a usable Retry-After, or fails in the
    transport while the context is live): 500ms * 2^35 overflows to a
    negative duration and [rand.Int64N] panics on it.  Nothing is asked of
    the wait after the 36th attempt, which never starts. *)
Theorem doRequest_panics_after_35_retries :
  sendable c method path body -> default_delays c ->
  36 <= maxRetries (retry c) < max_signed ->
  (forall i, (i < 35)%nat ->
     ((exists r, do_result (env i) = inl r
         /\ isRetryableStatus (http.StatusCode r) = true)
      \/ (exists err, do_result (env i) = inr err /\ ctx_err (env i) = None))
     /\ wake (env i) = TimerFired) ->
  ((exists r, do_result (env 35%nat) = inl r
      /\ isRetryableStatus (http.StatusCode r) = true
      /\ retryAfterDelay (retry c) (Some r) = None)
   \/ (exists err, do_result (env 35%nat) = inr err /\ ctx_err (env 35%nat) = None)) ->
  exists evs,
    doRequest c env method path body = (Panics, evs)
    /\ length (requests evs) = 36%nat
    /\ length (sleeps evs) = 35%nat.
Proof.
  intros [Hbody Hreq] Hdef Hk Hall Hlast.
  destruct (doRequest_loop c env method path body Hbody) as (br & Hm & ->).
  rewrite iterations_S by lia.
  replace (S (Z.to_nat (maxRetries (retry c))))
    with (35 + S (Z.to_nat (maxRetries (retry c)) - 35))%nat by lia.
  destruct (retryLoop_skip 35 (S (Z.to_nat (maxRetries (retry c)) - 35)) 0 br None None
              Hm Hreq) as (evs & lr & le & Heq & Hr & Hs).
  { intros i Hi.
    destruct (Hall i ltac:(lia)) as [[(r & Hdo & Hst) | (err & Hdo & Hctx)] Hw].
    - left.
      destruct (retryDelay_default_defined c (Z.of_nat i) (Some r) (seed (env i)) Hdef
                  ltac:(lia)) as [d Hd].
      exists r, d. auto.
    - right.
      destruct (retryDelay_default_defined c (Z.of_nat i) None (seed (env i)) Hdef
                  ltac:(lia)) as [d Hd].
      exists err, d. auto. }
  { cbn. lia. }
  change (0 + 35)%nat with 35%nat in Heq. rewrite Heq.
  assert (Hpanic : forall resp,
            retryAfterDelay (retry c) resp = None ->
            retryDelay (retry c) (Z.of_nat 35) resp (seed (env 35%nat)) = None).
  { intros resp Hra. unfold retryDelay. rewrite Hra.
    now apply (backoffDelay_default_35 c _ Hdef). }
  assert (Hlen : forall req : http.Request,
            length (requests (evs ++ [EvRequest req])) = 36%nat
            /\ length (sleeps (evs ++ [EvRequest req])) = 35%nat).
  { intros req. rewrite requests_app, sleeps_app, !length_app, Hr, Hs. split; reflexivity. }
  destruct Hlast as [(r & Hdo & Hst & Hra) | (err & Hdo & Hctx)].
  - rewrite (retryLoop_panic c env method path body _ _ _ _ _ r Hm Hreq Hdo Hst)
      by (try lia; now apply Hpanic).
    cbn [fst snd]. eexists. split; [reflexivity | apply Hlen].
  - rewrite (retryLoop_panic_net _ _ _ _ _ err Hm Hreq Hdo Hctx)
      by (try lia; now apply Hpanic).
    cbn [fst snd]. eexists. split; [reflexivity | apply Hlen].
Qed.

End Transport.

(** ** The methods of the client *)

Section MethodProperties.
Context `{GoLib}.
Variable c : Client.
Variable env : nat -> Attempt.

(** The predicates on the error of a response, wrapped or not. *)
Lemma checkResponse_predicates resp err prefix :
  checkResponse resp = Some err ->
  (IsNotFound (Errorf prefix err) = true <-> http.StatusCode resp = 404)
  /\ (IsConflict (Errorf prefix err) = true <-> http.StatusCode resp = 409)
  /\ (IsUnauthorized (Errorf prefix err) = true <-> http.StatusCode resp = 401)
  /\ (IsForbidden (Errorf prefix err) = true <-> http.StatusCode resp = 403).
Proof.
  intros Hcheck.
  assert (Hnot : ~ is_2xx (http.StatusCode resp)).
  { intros H2. apply checkResponse_2xx in H2. congruence. }
  destruct (checkResponse_non2xx resp Hnot) as (err' & e & Hc & _ & Hkind & _).
  assert (err' = err) by congruence. subst err'.
  destruct (kind_predicates err _ Hkind) as (Hnf & Hcf & Hun & Hfb).
  cbn [IsNotFound IsConflict IsUnauthorized IsForbidden].
  rewrite Hnf, Hcf, Hun, Hfb.
  destruct (kind_of_status_cases (http.StatusCode resp))
    as [[Hs Hk]|[[Hs Hk]|[[Hs Hk]|[[Hs Hk]|[[Hs Hk]|[Hs Hk]]]]]];
    rewrite Hk; repeat split; intros; try discriminate; try lia.
Qed.

(** X16.  The reading and decoding errors of [doJSON] on a 2xx response: with a
    nil result the body is not looked at; a body that cannot be read or
    decoded gives an error that names the step, the second with the status
    code; otherwise the decoded value is returned. *)
Theorem doJSON_2xx {T} method path body k resp :
  sendable c method path body ->
  final_response c env k resp ->
  is_2xx (http.StatusCode resp) ->
  exists evs,
    length (requests evs) = S k
    /\ doJSON (T := T) c env method path body None = (Returns (None, None), evs)
    /\ forall decode : string -> T + string,
         (forall e, http.BodyErr resp = Some e ->
            doJSON c env method path body (Some decode)
            = (Returns (None, Some (Errorf "reading response body: " (ForeignError e))),
               evs))
         /\ (forall v, http.BodyErr resp = None -> decode (http.Body resp) = inl v ->
               doJSON c env method path body (Some decode) = (Returns (Some v, None), evs))
         /\ (forall e, http.BodyErr resp = None -> decode (http.Body resp) = inr e ->
               doJSON c env method path body (Some decode)
               = (Returns (None, Some (Errorf
                    ("unmarshaling response (status " ++ pretty (http.StatusCode resp)
                     ++ "): ") (ForeignError e))), evs)).
Proof.
  intros Hs (Hk & Hall & Hdo & Hst) H2.
  destruct (doRequest_retries_then_response c env method path body k resp Hs Hk Hall Hdo Hst)
    as (evs & Hr & Hlen & _).
  exists evs. split; [exact Hlen|].
  apply checkResponse_2xx in H2.
  split; [rewrite (doJSON_response c env method path body _ resp evs Hr), H2; reflexivity|].
  intros decode.
  rewrite (doJSON_response c env method path body _ resp evs Hr), H2.
  repeat split.
  - intros e ->. reflexivity.
  - intros v -> ->. reflexivity.
  - intros e -> ->. reflexivity.
Qed.

(** X17.  A method that decodes a result returns the decoded value on a 2xx
    response; on any other final response it returns no value and the
    error of the response, wrapped with the name of the operation, which
    the four predicates still classify by the status code. *)
Theorem jsonCall_response {T} op method path body (decode : string -> T + string) k resp :
  sendable c method path body ->
  final_response c env k resp ->
  exists evs,
    length (requests evs) = S k
    /\ (forall v, is_2xx (http.StatusCode resp) -> http.BodyErr resp = None ->
          decode (http.Body resp) = inl v ->
          jsonCall c env op method path body (Some decode) = (Returns (Some v, None), evs))
    /\ (~ is_2xx (http.StatusCode resp) ->
        exists err,
          checkResponse resp = Some err
          /\ jsonCall c env op method path body (Some decode)
             = (Returns (None, Some (Errorf (op ++ ": ") err)), evs)
          /\ (IsNotFound (Errorf (op ++ ": ") err) = true <-> http.StatusCode resp = 404)
          /\ (IsConflict (Errorf (op ++ ": ") err) = true <-> http.StatusCode resp = 409)
          /\ (IsUnauthorized (Errorf (op ++ ": ") err) = true
              <-> http.StatusCode resp = 401)
          /\ (IsForbidden (Errorf (op ++ ": ") err) = true <-> http.StatusCode resp = 403)).
Proof.
  intros Hs (Hk & Hall & Hdo & Hst).
  destruct (doRequest_retries_then_response c env method path body k resp Hs Hk Hall Hdo Hst)
    as (evs & Hr & Hlen & _).
  exists evs. split; [exact Hlen|]. unfold jsonCall.
  rewrite (doJSON_response c env method path body _ resp evs Hr). split.
  - intros v H2 Hread Hdec. apply checkResponse_2xx in H2.
    rewrite H2, Hread, Hdec. reflexivity.
  - intros Hnot. destruct (checkResponse_non2xx resp Hnot) as (err & e & Hc & _).
    exists err. split; [exact Hc|]. rewrite Hc. split; [reflexivity|].
    now apply checkResponse_predicates.
Qed.

(** X18.  A delete method returns nil on a 2xx response; on any other final
    response it returns the error of the response, wrapped with the name of
    the operation, which the four predicates still classify by the status
    code: [IsNotFound] holds of the error of a delete exactly when the
    server answered 404. *)
Theorem deleteCall_response op path k resp :
  NewRequest_error MethodDelete (baseURL c ++ path) = None ->
  final_response c env k resp ->
  exists evs,
    length (requests evs) = S k
    /\ (is_2xx (http.StatusCode resp) -> deleteCall c env op path = (Returns None, evs))
    /\ (~ is_2xx (http.StatusCode resp) ->
        exists err,
          checkResponse resp = Some err
          /\ deleteCall c env op path = (Returns (Some (Errorf (op ++ ": ") err)), evs)
          /\ (IsNotFound (Errorf (op ++ ": ") err) = true <-> http.StatusCode resp = 404)
          /\ (IsConflict (Errorf (op ++ ": ") err) = true <-> http.StatusCode resp = 409)
          /\ (IsUnauthorized (Errorf (op ++ ": ") err) = true
              <-> http.StatusCode resp = 401)
          /\ (IsForbidden (Errorf (op ++ ": ") err) = true <-> http.StatusCode resp = 403)).
Proof.
  intros Hreq (Hk & Hall & Hdo & Hst).
  assert (Hs : sendable c MethodDelete path body_nil).
  { split; [exists None; reflexivity | exact Hreq]. }
  destruct (doRequest_retries_then_response c env MethodDelete path body_nil k resp
              Hs Hk Hall Hdo Hst) as (evs & Hr & Hlen & _).
  exists evs. split; [exact Hlen|]. unfold deleteCall. rewrite Hr. cbn [fst snd]. split.
  - intros H2. apply checkResponse_2xx in H2. now rewrite H2.
  - intros Hnot. destruct (checkResponse_non2xx resp Hnot) as (err & e & Hc & _).
    exists err. split; [exact Hc|]. rewrite Hc. split; [reflexivity|].
    now apply checkResponse_predicates.
Qed.

(** X23.  A budget of [math.MaxInt64] retries: [maxRetries + 1] wraps
    around to a negative number and the loop of [doRequest] does not run.
    The call sends no request and returns neither a response nor an error;
    [doJSON] and the delete methods then dereference the nil response. *)
Theorem doRequest_budget_overflow method path body br :
  maxRetries (retry c) = max_signed ->
  marshaled body br ->
  doRequest c env method path body = (Returns (None, None), [])
  /\ (forall T (result : option (string -> T + string)),
        doJSON c env method path body result = (Panics, []))
  /\ (forall op path', deleteCall c env op path' = (Panics, [])).
Proof.
  intros Hmax Hm.
  assert (Hit : iterations c = 0%nat).
  { unfold iterations, Int64.add. rewrite Hmax. reflexivity. }
  assert (Hrun : forall b br', marshaled b br' ->
            forall m p, doRequest c env m p b = (Returns (None, None), [])).
  { intros b br' Hb m p. unfold doRequest, marshaled in *. rewrite Hit.
    destruct b as [|[jsonBytes|e]]; try contradiction; reflexivity. }
  split; [now apply (Hrun body br)|]. split.
  - intros T result. unfold doJSON. now rewrite (Hrun body br Hm).
  - intros op path'. unfold deleteCall.
    now rewrite (Hrun body_nil None eq_refl).
Qed.

End MethodProperties.

(** ** The bundle attachment resource *)

Lemma SplitN2_no_sep s sep :
  byte_in sep s = false -> SplitN2 s sep = [s].
Proof.
  induction s as [|ch rest IH]; [reflexivity|]. cbn [byte_in SplitN2].
  intros Hno. apply orb_false_elim in Hno as [Hch Hrest].
  rewrite Ascii.eqb_sym, Hch, (IH Hrest). reflexivity.
Qed.

Lemma SplitN2_sep a b sep :
  byte_in sep a = false -> SplitN2 (a ++ String sep b) sep = [a; b].
Proof.
  induction a as [|ch rest IH]; cbn [byte_in].
  - intros _. rewrite append_nil_l. cbn [SplitN2]. now rewrite Ascii.eqb_refl.
  - intros Hno. apply orb_false_elim in Hno as [Hch Hrest].
    rewrite append_cons. cbn [SplitN2]. rewrite Ascii.eqb_sym, Hch, (IH Hrest).
    reflexivity.
Qed.

(** The two shapes of a split: no separator, or the cut at the first one. *)
Lemma SplitN2_cases s sep :
  (byte_in sep s = false /\ SplitN2 s sep = [s])
  \/ exists a b, s = a ++ String sep b /\ byte_in sep a = false
                 /\ SplitN2 s sep = [a; b].
Proof.
  induction s as [|ch rest IH].
  - left. split; reflexivity.
  - cbn [byte_in SplitN2]. destruct (Ascii.eqb_spec ch sep) as [->|Hne].
    + right. exists EmptyString, rest. repeat split.
    + assert (Hsym : Ascii.eqb sep ch = false)
        by (apply Ascii.eqb_neq; congruence).
      rewrite Hsym. cbn [orb].
      destruct IH as [[Hno ->] | (a & b & -> & Hno & ->)].
      * left. split; [exact Hno | reflexivity].
      * right. exists (String ch a), b. rewrite append_cons. cbn [byte_in].
        rewrite Hsym, Hno. repeat split.
Qed.

(** An id made of a non-empty stack id without colon, a colon and a
    non-empty bundle id is accepted and cut back into the two ids. *)
Lemma ImportState_accepts stackID bundleID :
  stackID <> EmptyString -> bundleID <> EmptyString ->
  byte_in ":" stackID = false ->
  ImportState (stackID ++ ":" ++ bundleID)
  = inl {| ID := stackID ++ ":" ++ bundleID; StackID := stackID; BundleID := bundleID |}.
Proof.
  intros Hs Hb Hno. unfold ImportState.
  change (stackID ++ ":" ++ bundleID) with (stackID ++ String ":" bundleID).
  rewrite (SplitN2_sep _ _ _ Hno).
  destruct (String.eqb_spec stackID EmptyString); [contradiction|].
  destruct (String.eqb_spec bundleID EmptyString); [contradiction|]. reflexivity.
Qed.

(** X20.  [ImportState] accepts exactly the ids made of a non-empty stack id
    without colon, a colon and a non-empty bundle id, and recovers the two
    ids; any other id gives the diagnostic "Invalid Import ID". *)
Theorem ImportState_spec id :
  (forall m, ImportState id = inl m ->
     ID m = id /\ id = StackID m ++ ":" ++ BundleID m
     /\ StackID m <> EmptyString /\ BundleID m <> EmptyString
     /\ byte_in ":" (StackID m) = false)
  /\ (forall stackID bundleID,
        id = stackID ++ ":" ++ bundleID ->
        stackID <> EmptyString -> bundleID <> EmptyString ->
        byte_in ":" stackID = false ->
        ImportState id = inl {| ID := id; StackID := stackID; BundleID := bundleID |})
  /\ (forall d, ImportState id = inr d ->
        Summary d = "Invalid Import ID"
        /\ Detail d = "Expected format: stack_id:bundle_id, got: " ++ id).
Proof.
  split; [|split].
  - unfold ImportState. intros m.
    destruct (SplitN2_cases id ":") as [[Hno ->] | (a & b & Hid & Hno & ->)];
      [discriminate|].
    destruct (String.eqb_spec a EmptyString); [discriminate|].
    destruct (String.eqb_spec b EmptyString); [discriminate|].
    cbn [orb]. intros [= <-]. cbn. repeat split; assumption.
  - intros stackID bundleID -> Hs Hb Hno. now apply ImportState_accepts.
  - unfold ImportState. intros d.
    destruct (SplitN2_cases id ":") as [[Hno ->] | (a & b & Hid & Hno & ->)].
    + intros [= <-]. split; reflexivity.
    + destruct (String.eqb a EmptyString || String.eqb b EmptyString);
        intros [= <-]; split; reflexivity.
Qed.

Section ResourceProperties.
Context `{GoLib}.
Variable c : Client.
Variable env : nat -> Attempt.
Variable marshal_AttachBundleRequest : string -> string.

(** X21.  The id [Create] stores imports back to the state [Create] stored, when
    both ids are non-empty and the stack id has no colon; a stack id with a
    colon is cut at its first colon instead. *)
Theorem Create_ImportState stackID bundleID m :
  fst (Create c env marshal_AttachBundleRequest stackID bundleID) = Returns (inl m) ->
  (stackID <> EmptyString -> bundleID <> EmptyString -> byte_in ":" stackID = false ->
   ImportState (ID m) = inl m)
  /\ (forall a b, stackID = a ++ ":" ++ b -> a <> EmptyString ->
        byte_in ":" a = false ->
        ImportState (ID m)
        = inl {| ID := ID m; StackID := a; BundleID := b ++ ":" ++ bundleID |}).
Proof.
  unfold Create. cbn [fst].
  destruct (fst (AttachBundle c env marshal_AttachBundleRequest stackID bundleID))
    as [[err|]|]; try discriminate.
  intros [= <-]. cbn [ID]. split.
  - intros Hs Hb Hno. now apply ImportState_accepts.
  - intros a b -> Ha Hno.
    replace ((a ++ ":" ++ b) ++ ":" ++ bundleID) with (a ++ ":" ++ (b ++ ":" ++ bundleID)).
    + apply ImportState_accepts; auto. destruct b; discriminate.
    + clear. induction a as [|ch a IH]; [reflexivity|].
      rewrite !append_cons. f_equal. exact IH.
Qed.

(** X19.  [Delete] treats a bundle that is already detached as detached: it adds
    no diagnostic when the server answers 2xx or 404, and one diagnostic,
    "Error Detaching Bundle", on any other final response. *)
Theorem Delete_idempotent stackID bundleID k resp :
  NewRequest_error MethodDelete
    (baseURL c ++ "/api/v1/stacks/" ++ stackID ++ "/bundles/" ++ bundleID) = None ->
  final_response c env k resp ->
  exists evs,
    snd (Delete c env stackID bundleID) = evs
    /\ length (requests evs) = S k
    /\ (is_2xx (http.StatusCode resp) \/ http.StatusCode resp = 404 ->
        fst (Delete c env stackID bundleID) = Returns [])
    /\ (~ is_2xx (http.StatusCode resp) -> http.StatusCode resp <> 404 ->
        exists detail,
          fst (Delete c env stackID bundleID)
          = Returns [{| Summary := "Error Detaching Bundle"; Detail := detail |}]).
Proof.
  intros Hreq (Hk & Hall & Hdo & Hst).
  assert (Hs : sendable c MethodDelete
                 ("/api/v1/stacks/" ++ stackID ++ "/bundles/" ++ bundleID) body_nil).
  { split; [exists None; reflexivity | exact Hreq]. }
  destruct (doRequest_retries_then_response c env MethodDelete _ body_nil k resp
              Hs Hk Hall Hdo Hst) as (evs & Hr & Hlen & _).
  exists evs. unfold Delete, DetachBundle, deleteCall. rewrite Hr. cbn [fst snd].
  split; [reflexivity|]. split; [exact Hlen|]. split.
  - intros [H2 | H404].
    + apply checkResponse_2xx in H2. now rewrite H2.
    + destruct (checkResponse_non2xx resp ltac:(unfold is_2xx; lia)) as (err & e & Hc & _).
      rewrite Hc.
      destruct (checkResponse_predicates resp err ("detach bundle" ++ ": ") Hc) as (Hnf & _).
      apply Hnf in H404. now rewrite H404.
  - intros Hnot H404.
    destruct (checkResponse_non2xx resp Hnot) as (err & e & Hc & _). rewrite Hc.
    destruct (checkResponse_predicates resp err ("detach bundle" ++ ": ") Hc) as (Hnf & _).
    assert (Hx : IsNotFound (Errorf ("detach bundle" ++ ": ") err) = false).
    { apply not_true_is_false. intros Hx. apply Hnf in Hx. contradiction. }
    rewrite Hx. eexists. reflexivity.
Qed.

End ResourceProperties.

(** ** ListStacks *)

Lemma string_app_assoc (a b d : string) : (a ++ b) ++ d = a ++ b ++ d.
Proof.
  induction a as [|ch a IH]; [reflexivity|]. rewrite !append_cons. now rewrite IH.
Qed.

(** X22.  The path of [ListStacks] is the bare collection path when no option is
    set; otherwise the options that are set follow it in the order
    space_id, limit, offset, the first after a question mark and the others
    after an ampersand.  The values are not escaped. *)
Theorem ListStacks_path_query :
  ListStacks_path None = "/api/v1/stacks"
  /\ forall o,
       ListStacks_path (Some o)
       = match ListStacks_params o with
         | [] => "/api/v1/stacks"
         | params => "/api/v1/stacks" ++ "?" ++ String.concat "&" params
         end.
Proof.
  split; [reflexivity|]. intros [[id|] [l|] [f|]];
    unfold ListStacks_path, ListStacks_params; cbn -[String.append pretty];
    rewrite ?string_app_assoc; reflexivity.
Qed.

(** ** The further properties on concrete calls *)

Lemma budget_in_range n :
  0 <= n < 1000 -> 0 <= maxRetries (retry (example_client n)) < max_signed.
Proof. cbn. unfold max_signed. lia. Qed.

Lemma example_sendable method path :
  Reference.NewRequest_error method (baseURL (example_client 3) ++ path) = None ->
  forall n, sendable (H := reference_lib) (example_client n) method path body_nil.
Proof. intros Hreq n. split; [exists None; reflexivity | exact Hreq]. Qed.

(** One 503 and its wait, then a response that is not retryable. *)
Lemma example_final (r : http.Response) :
  isRetryableStatus (http.StatusCode r) = false ->
  final_response (H := reference_lib) (example_client 3) (server 1 r503 r) 1 r.
Proof.
  intros Hst. split; [cbn; unfold max_signed; lia|]. split; [|split; [reflexivity|exact Hst]].
  intros i Hi. left. destruct i as [|i]; [|lia].
  exists r503, 375000000. repeat split; reflexivity.
Qed.

(** [doRequest_bounds] on the default budget and a server that always
    answers 503. *)
Lemma doRequest_bounds_witness :
  Z.of_nat (length (requests (snd (doRequest (H := reference_lib) (example_client 3)
                                     (server 0 r503 r503) http.MethodGet org_path body_nil))))
  <= 3 + 1.
Proof.
  exact (proj1 (doRequest_bounds (H := reference_lib) (example_client 3)
                  (server 0 r503 r503) http.MethodGet org_path body_nil
                  (budget_in_range 3 ltac:(lia)))).
Defined.

(** [doRequest_result] on a 503 followed by a 200. *)
Lemma doRequest_result_witness :
  isRetryableStatus (http.StatusCode r200) = false
  /\ exists j, do_result (server 1 r503 r200 j) = inl r200.
Proof.
  destruct (proj1 (doRequest_result (H := reference_lib) (example_client 3)
                     (server 1 r503 r200) http.MethodGet org_path body_nil
                     (Some r200) None ltac:(vm_compute; reflexivity)) r200 eq_refl)
    as (_ & Hst & j & Hdo & _).
  split; [exact Hst | exists j; exact Hdo].
Defined.

(** [doRequest_wait_bound] on the default budget and a server that always
    answers 503. *)
Lemma doRequest_wait_bound_witness :
  4 * total (sleeps (snd (doRequest (H := reference_lib) (example_client 3)
                            (server 0 r503 r503) http.MethodGet org_path body_nil)))
  <= 5 * maxDelay (retry (example_client 3)) * maxRetries (retry (example_client 3)).
Proof.
  exact (proj2 (doRequest_wait_bound (H := reference_lib) (example_client 3)
                  (server 0 r503 r503) http.MethodGet org_path body_nil
                  ltac:(vm_compute; reflexivity) (budget_in_range 3 ltac:(lia)))).
Defined.

(** [doRequest_request_headers] on the request of a GET of the test
    client. *)
Lemma doRequest_request_headers_witness :
  http.Get (http.ReqHeader (newRequest (example_client 3) http.MethodGet org_path
                              body_nil None)) "Authorization"
  = "Bearer " ++ apiToken (example_client 3).
Proof.
  destruct (doRequest_request_headers (H := reference_lib) (example_client 3)
              (server 0 r200 r200) http.MethodGet org_path body_nil
              (newRequest (example_client 3) http.MethodGet org_path body_nil None)
              ltac:(vm_compute; left; reflexivity))
    as (_ & _ & Hauth & _).
  exact Hauth.
Defined.

(** [doRequest_transport_error] on a budget of one retry and a network
    that refuses every connection. *)
Lemma doRequest_transport_error_witness :
  exists evs,
    doRequest (H := reference_lib) (example_client 1)
      (fun _ => failed "connection refused") http.MethodGet org_path body_nil
    = (Returns (None, Some (Errorf "executing request: "
                              (ForeignError "connection refused"))), evs)
    /\ length (requests evs) = 2%nat
    /\ length (sleeps evs) = 1%nat.
Proof.
  apply (doRequest_transport_error (H := reference_lib) (example_client 1)
           (fun _ => failed "connection refused") http.MethodGet org_path body_nil 1).
  - apply example_sendable. reflexivity.
  - cbn. unfold max_signed. lia.
  - intros i Hi. right. destruct i as [|i]; [|lia].
    exists (ForeignError "connection refused"), 375000000. repeat split; reflexivity.
  - reflexivity.
  - right. reflexivity.
Defined.

(** [doRequest_default_retry_then_response] on a 503 followed by a 200. *)
Lemma doRequest_default_retry_then_response_witness :
  exists evs,
    doRequest (H := reference_lib) (example_client 3) (server 1 r503 r200)
      http.MethodGet org_path body_nil
    = (Returns (Some r200, None), evs)
    /\ length (requests evs) = 2%nat.
Proof.
  apply (doRequest_default_retry_then_response (H := reference_lib) (example_client 3)
           (server 1 r503 r200) http.MethodGet org_path body_nil 1 r200).
  - apply example_sendable. reflexivity.
  - split; reflexivity.
  - lia.
  - cbn. unfold max_signed. lia.
  - intros i Hi. destruct i as [|i]; [|lia]. exists r503. repeat split; reflexivity.
  - reflexivity.
  - reflexivity.
Defined.

(** [doRequest_default_exhausted] on the default budget and a server that
    always answers 503. *)
Lemma doRequest_default_exhausted_witness :
  exists evs,
    doRequest (H := reference_lib) (example_client 3) (server 0 r503 r503)
      http.MethodGet org_path body_nil
    = (Returns (None, Some (APIErrorPtr
         {| StatusCode := 503;
            Message := "request failed after " ++ pretty 3
                       ++ " retries with status " ++ pretty 503;
            RequestID := EmptyString |})), evs)
    /\ length (requests evs) = 4%nat.
Proof.
  apply (doRequest_default_exhausted (H := reference_lib) (example_client 3)
           (server 0 r503 r503) http.MethodGet org_path body_nil r503).
  - apply example_sendable. reflexivity.
  - split; reflexivity.
  - cbn. lia.
  - intros i Hi. exists r503. repeat split; reflexivity.
  - reflexivity.
  - reflexivity.
Defined.

(** [doRequest_panics_after_35_retries] on a budget of 36 retries and a
    server that answers 429 with [Retry-After: 1] to the first 35 requests
    and 503 to the 36th. *)
Lemma doRequest_panics_after_35_retries_witness :
  exists evs,
    doRequest (H := reference_lib) (example_client 36)
      (server 35 (retryAfterResponse "1") r503) http.MethodGet org_path body_nil
    = (Panics, evs)
    /\ length (requests evs) = 36%nat
    /\ length (sleeps evs) = 35%nat.
Proof.
  apply (doRequest_panics_after_35_retries (H := reference_lib) (example_client 36)
           (server 35 (retryAfterResponse "1") r503) http.MethodGet org_path body_nil).
  - apply example_sendable. reflexivity.
  - split; reflexivity.
  - cbn. unfold max_signed. lia.
  - intros i Hi. unfold server. destruct (Nat.ltb_spec i 35) as [_|Hge]; [|lia].
    split; [left; exists (retryAfterResponse "1"); split; reflexivity | reflexivity].
  - left. exists r503. repeat split; reflexivity.
Defined.

(** [retryDelay_RetryAfter] on [Retry-After: 2]. *)
Lemma retryDelay_RetryAfter_witness :
  retryDelay (H := reference_lib) defaultRetryConfig 0 (Some (retryAfterResponse "2")) 0
  = Some (Z.min (2 * Second) (maxDelay defaultRetryConfig)).
Proof.
  apply (retryDelay_RetryAfter (H := reference_lib) defaultRetryConfig 0
           (retryAfterResponse "2") 0 2).
  - reflexivity.
  - reflexivity.
  - lia.
  - unfold Second, max_signed. lia.
Defined.

(** [retryDelay_RetryAfter_capped] on a value whose product with a second
    overflows. *)
Lemma retryDelay_RetryAfter_capped_witness :
  exists d,
    d <= maxDelay defaultRetryConfig
    /\ forall attempt seed,
         retryDelay (H := reference_lib) defaultRetryConfig attempt
           (Some (retryAfterResponse "9223372037")) seed = Some d.
Proof.
  apply (retryDelay_RetryAfter_capped (H := reference_lib) defaultRetryConfig
           (retryAfterResponse "9223372037") 9223372037).
  - reflexivity.
  - reflexivity.
  - lia.
Defined.

(** [retryDelay_default_range] on the first retry: between 375ms and
    625ms. *)
Lemma retryDelay_default_range_witness :
  exists d,
    retryDelay (H := reference_lib) defaultRetryConfig 0 None 0 = Some d
    /\ 3 * Z.min (500 * Millisecond * 2 ^ 0) (30 * Second) <= 4 * d
    /\ 4 * d < 5 * Z.min (500 * Millisecond * 2 ^ 0) (30 * Second).
Proof.
  apply (retryDelay_default_range (H := reference_lib) defaultRetryConfig 0 None 0).
  - reflexivity.
  - reflexivity.
  - lia.
  - reflexivity.
Defined.

(** [doJSON_2xx] on a 503 followed by a 200. *)
Lemma doJSON_2xx_witness :
  exists evs,
    length (requests evs) = 2%nat
    /\ doJSON (H := reference_lib) (T := unit) (example_client 3) (server 1 r503 r200)
         http.MethodGet org_path body_nil None = (Returns (None, None), evs).
Proof.
  destruct (doJSON_2xx (H := reference_lib) (T := unit) (example_client 3)
              (server 1 r503 r200) http.MethodGet org_path body_nil 1 r200)
    as (evs & Hlen & Hnil & _).
  - apply example_sendable. reflexivity.
  - apply example_final. reflexivity.
  - unfold is_2xx. cbn. lia.
  - exists evs. split; [exact Hlen | exact Hnil].
Defined.

(** [jsonCall_response] on [GetBundle] and a 503 followed by a 404. *)
Lemma jsonCall_response_witness :
  exists evs err,
    GetBundle (H := reference_lib) (example_client 3) (server 1 r503 r404)
      "bundle-def-456" decode_any
    = (Returns (None, Some (Errorf ("get bundle" ++ ": ") err)), evs)
    /\ IsNotFound (Errorf ("get bundle" ++ ": ") err) = true.
Proof.
  destruct (jsonCall_response (H := reference_lib) (example_client 3) (server 1 r503 r404)
              "get bundle" http.MethodGet ("/api/v1/bundles/" ++ "bundle-def-456")
              body_nil decode_any 1 r404)
    as (evs & _ & _ & Hnon).
  - apply example_sendable. reflexivity.
  - apply example_final. reflexivity.
  - destruct Hnon as (err & _ & Hcall & Hnf & _); [unfold is_2xx; cbn; lia|].
    exists evs, err. split; [exact Hcall | now apply Hnf].
Defined.

(** [deleteCall_response] on [DeleteBundle] and a 503 followed by a 404. *)
Lemma deleteCall_response_witness :
  exists evs err,
    DeleteBundle (H := reference_lib) (example_client 3) (server 1 r503 r404)
      "bundle-def-456"
    = (Returns (Some (Errorf ("delete bundle" ++ ": ") err)), evs)
    /\ IsNotFound (Errorf ("delete bundle" ++ ": ") err) = true.
Proof.
  destruct (deleteCall_response (H := reference_lib) (example_client 3) (server 1 r503 r404)
              "delete bundle" ("/api/v1/bundles/" ++ "bundle-def-456") 1 r404)
    as (evs & _ & _ & Hnon).
  - reflexivity.
  - apply example_final. reflexivity.
  - destruct Hnon as (err & _ & Hcall & Hnf & _); [unfold is_2xx; cbn; lia|].
    exists evs, err. split; [exact Hcall | now apply Hnf].
Defined.

(** [doRequest_budget_overflow] on the client [NewClient] makes of
    [MaxRetries: math.MaxInt64]. *)
Lemma doRequest_budget_overflow_witness :
  NewClient (example_config max_signed) = inl (example_client max_signed)
  /\ GetBundle (H := reference_lib) (example_client max_signed) (server 0 r200 r200)
       "bundle-def-456" decode_any = (Panics, []).
Proof.
  split; [reflexivity|].
  destruct (doRequest_budget_overflow (H := reference_lib) (example_client max_signed)
              (server 0 r200 r200) http.MethodGet ("/api/v1/bundles/" ++ "bundle-def-456")
              body_nil None eq_refl eq_refl) as (_ & Hjson & _).
  unfold GetBundle, jsonCall. now rewrite Hjson.
Defined.

(** [Delete_idempotent] on a bundle the server no longer knows. *)
Lemma Delete_idempotent_witness :
  fst (Delete (H := reference_lib) (example_client 3) (server 1 r503 r404)
         "stack-abc-123" "bundle-def-456") = Returns [].
Proof.
  destruct (Delete_idempotent (H := reference_lib) (example_client 3) (server 1 r503 r404)
              "stack-abc-123" "bundle-def-456" 1 r404)
    as (evs & _ & _ & Hok & _).
  - reflexivity.
  - apply example_final. reflexivity.
  - apply Hok. right. reflexivity.
Defined.

(** [Create_ImportState] on the ids of the test of the composite id. *)
Lemma Create_ImportState_witness :
  ImportState "stack-abc-123:bundle-def-456"
  = inl {| ID := "stack-abc-123:bundle-def-456";
           StackID := "stack-abc-123"; BundleID := "bundle-def-456" |}.
Proof.
  apply (proj1 (Create_ImportState (H := reference_lib) (example_client 3)
                  (server 0 r200 r200) quoted "stack-abc-123" "bundle-def-456"
                  {| ID := "stack-abc-123:bundle-def-456";
                     StackID := "stack-abc-123"; BundleID := "bundle-def-456" |}
                  ltac:(vm_compute; reflexivity))).
  - discriminate.
  - discriminate.
  - reflexivity.
Defined.
